(** * graphql-auth: the permission model of the request context

    A shallow embedding of the three JavaScript modules of the package:

    - [errors.js]: the two error classes, [MissingScopeError] (with its
      message rendering) and [MustLogInError];
    - [context-helpers.js]: [getScopeContextHelpers] and
      [getEventContextHelpers], the boolean and the asserting checks;
    - [index.js]: the asynchronous context builder, which parses the
      [Authorization] header, awaits the token verification and returns
      the [auth] bundle and the [user] record.

    Conventions.  A JavaScript string is modelled by [string], one
    character per code unit; the strings covered are those whose code
    units are below 256 (an HTTP header reaches Node as latin1, and the
    claims of a token are taken in the same range).  [undefined] is
    [None] where a value may be missing; an operation that throws on
    [undefined] has a [Completion] for its result.  A
    synchronous function that can throw lives in the monad [Eval], which
    threads the principal as its store; the asynchronous builder lives in
    [Async], whose only effect is the call of the verification
    collaborator. *)

From Stdlib Require Import String Ascii List Bool NArith Lia.
From stdpp Require Import base option list strings gmap.
Import ListNotations.

Local Open Scope string_scope.
Local Open Scope list_scope.

(** ** Strings as JavaScript sees them *)

Module JsString.

(** [\s] of a regular expression, restricted to code units below 256:
    TAB, LF, VT, FF, CR, SPACE and NO-BREAK SPACE. *)
Definition is_space (c : ascii) : bool :=
  let n := N_of_ascii c in
  ((9 <=? n) && (n <=? 13) || (n =? 32) || (n =? 160))%N.

(** [String.prototype.toLowerCase] on one code unit below 256: the
    letters A-Z and the accented capitals U+00C0-U+00DE (without the
    multiplication sign U+00D7) move up by 32. *)
Definition lower_char (c : ascii) : ascii :=
  let n := N_of_ascii c in
  if ((65 <=? n) && (n <=? 90)
      || (192 <=? n) && (n <=? 222) && negb (n =? 215))%N
  then ascii_of_N (n + 32)
  else c.

Fixpoint toLowerCase (s : string) : string :=
  match s with
  | EmptyString => EmptyString
  | String c rest => String (lower_char c) (toLowerCase rest)
  end.

(** A string is falsy exactly when it is empty. *)
Definition truthy (s : string) : bool :=
  match s with
  | EmptyString => false
  | String _ _ => true
  end.

(** [Array.prototype.join] on an array of strings. *)
Fixpoint join (sep : string) (l : list string) : string :=
  match l with
  | [] => EmptyString
  | [x] => x
  | x :: rest => x +:+ sep +:+ join sep rest
  end.

(** [lengthA = lim] in the splitting loop; [None] is the absent limit
    (2^32 - 1, which no array of pieces reaches). *)
Definition reached (lim : option nat) (A : list string) : bool :=
  match lim with
  | Some n => Nat.eqb (length A) n
  | None => false
  end.

(** The loop of [S.split(/\s+/, lim)].  [A] is the array of pieces
    pushed so far, [cur] the substring from the end [p] of the last
    separator to the scanning position [q], and [in_sep] tells that
    [q] is still inside the greedy match of [\s+] that began at the
    last push.  A separator that starts at [q] pushes [S[p..q]] and
    returns as soon as [lim] pieces are there; the end of the string
    pushes the tail [S[p..size]] unconditionally. *)
Fixpoint split_scan (lim : option nat) (A : list string) (cur : string)
         (in_sep : bool) (s : string) : list string :=
  match s with
  | EmptyString => A ++ [cur]
  | String c rest =>
      if is_space c then
        if in_sep then split_scan lim A cur true rest
        else
          let A' := A ++ [cur] in
          if reached lim A' then A'
          else split_scan lim A' EmptyString true rest
      else split_scan lim A (cur +:+ String c EmptyString) false rest
  end.

(** [S.split(/\s+/, lim)]: a limit of zero gives the empty array; the
    empty string gives one empty piece, since [\s+] does not match
    it. *)
Definition split_ws (lim : option nat) (s : string) : list string :=
  match lim with
  | Some O => []
  | _ => split_scan lim [] EmptyString false s
  end.

(** A string in which [\s] matches nowhere. *)
Fixpoint no_space (s : string) : bool :=
  match s with
  | EmptyString => true
  | String c rest => negb (is_space c) && no_space rest
  end.

End JsString.
Export JsString.

(** ** Values that cross the interfaces *)

(** A parameter documented as [string|Array]: one string, or an array of
    strings. *)
Inductive StringOrArray :=
| One (s : string)
| Many (l : list string).

(** [Array.isArray(x) ? x : [x]] *)
Definition toArray (x : StringOrArray) : list string :=
  match x with
  | One s => [s]
  | Many l => l
  end.

(** What the constructor of [MissingScopeError] can receive for one of
    its two requirements: nothing, [null], a string or an array. *)
Inductive Requirement :=
| ReqUndefined
| ReqNull
| ReqString (s : string)
| ReqArray (l : list string).

Definition requirement_of (x : StringOrArray) : Requirement :=
  match x with
  | One s => ReqString s
  | Many l => ReqArray l
  end.

(** The value read from a property of the event claim: a permission
    level, or something that is no string (a method of the prototype,
    the length of an array), or nothing. *)
Inductive JsValue :=
| VUndefined
| VString (s : string)
| VBuiltin.

(** The object held in [auth.events].  [own] maps an event id to the
    permission level stored for it; [builtin] lists the other names the
    object answers to, through its prototype chain or, for the array
    literal of the anonymous principal, its [length]. *)
Record JsObject := {
  own : gmap string string;
  builtin : list string
}.

(** [key in obj] *)
Definition has_property (obj : JsObject) (key : string) : bool :=
  match own obj !! key with
  | Some _ => true
  | None => bool_decide (key ∈ builtin obj)
  end.

(** [obj[key]]: an own entry shadows the prototype chain. *)
Definition get_property (obj : JsObject) (key : string) : JsValue :=
  match own obj !! key with
  | Some v => VString v
  | None => if bool_decide (key ∈ builtin obj) then VBuiltin else VUndefined
  end.

(** [v === p] for a string [p] *)
Definition strict_equal (v : JsValue) (p : string) : bool :=
  match v with
  | VString s => String.eqb s p
  | _ => false
  end.

(** ** errors.js *)

Module Errors.

Inductive ErrorClass :=
| MissingScope
| MustLogIn
| TypeError
| Foreign (name : string).

(** An error object, as far as a handler can tell two of them apart:
    its class and its message. *)
Record JsError := {
  error_class : ErrorClass;
  message : string
}.

(** The method [[makeRequirementMessage]]; [None] is [null]. *)
Definition makeRequirementMessage (reqs : Requirement) : option string :=
  match reqs with
  | ReqArray l =>
      if Nat.ltb 1 (length l) then
        Some (join ", " (take (length l - 1) l) +:+ ", or "
              +:+ default EmptyString (l !! (length l - 1)))
      else if Nat.ltb 0 (length l) then
        Some (default EmptyString (l !! 0))
      else None
  | ReqString s => Some s
  | ReqUndefined | ReqNull => None
  end.

(** [(m ? `${m}${suffix}` : null)] *)
Definition clause (m : option string) (suffix : string) : option string :=
  match m with
  | Some s => if truthy s then Some (s +:+ suffix) else None
  | None => None
  end.

(** [.filter((e) => e)] on an array of strings and [null]s *)
Fixpoint filter_truthy (l : list (option string)) : list string :=
  match l with
  | [] => []
  | Some s :: rest =>
      if truthy s then s :: filter_truthy rest else filter_truthy rest
  | None :: rest => filter_truthy rest
  end.

(** [new MissingScopeError(requiresGlobal, requiresEvent)] *)
Definition MissingScopeError (requiresGlobal requiresEvent : Requirement)
  : JsError :=
  let requiresGlobalMessage := makeRequirementMessage requiresGlobal in
  let requiresEventMessage := makeRequirementMessage requiresEvent in
  let requiresMessage :=
    join ", or "
      (filter_truthy [clause requiresGlobalMessage " global scope";
                      clause requiresEventMessage " event scope"]) in
  let message := "You don't have permission for that." in
  {| error_class := MissingScope;
     message := if truthy requiresMessage
                then message +:+ "(Requires " +:+ requiresMessage +:+ ")"
                else message |}.

(** [new MustLogInError()] *)
Definition MustLogInError : JsError :=
  {| error_class := MustLogIn; message := "You must be logged in." |}.

End Errors.
Export Errors.

(** ** The principal and the monad of the synchronous checks *)

(** The local object [auth] of the builder: the three data fields that
    the returned bundle spreads and that its helpers close over.
    [events] is the array literal of the anonymous principal or
    whatever the token carried as its event claim: [None] is the
    [undefined] of a token without that claim. *)
Record Principal := {
  isLoggedIn : bool;
  scopes : list string;
  events : option JsObject
}.

(** How a synchronous call ends. *)
Inductive Completion (A : Type) :=
| Normal (a : A)
| Throw (e : JsError).
Arguments Normal {A} a.
Arguments Throw {A} e.

(** Sequencing of two evaluations: a throw in the first ends both. *)
Definition and_then {A B} (c : Completion A) (k : A -> Completion B)
  : Completion B :=
  match c with
  | Normal a => k a
  | Throw e => Throw e
  end.

Notation "x <~ c ;; k" := (and_then c (fun x => k))
  (at level 100, c at next level, right associativity).

(** [arr.map(f)] for a callback that may throw: the entries are visited
    from the left and the first throw ends the call. *)
Fixpoint map_calls {A B} (f : A -> Completion B) (arr : list A)
  : Completion (list B) :=
  match arr with
  | [] => Normal []
  | x :: rest =>
      y <~ f x ;;
      ys <~ map_calls f rest ;;
      Normal (y :: ys)
  end.

(** The error of a property read or a method call on [undefined]. *)
Definition TypeError_reading (prop : string) : JsError :=
  {| error_class := TypeError;
     message := "Cannot read property '" +:+ prop +:+ "' of undefined" |}.

(** The error of [key in undefined]. *)
Definition TypeError_in (key : string) : JsError :=
  {| error_class := TypeError;
     message := "Cannot use 'in' operator to search for '" +:+ key
                +:+ "' in undefined" |}.

(** [key in obj], where [obj] may be [undefined]. *)
Definition js_in (key : string) (obj : option JsObject) : Completion bool :=
  match obj with
  | Some o => Normal (has_property o key)
  | None => Throw (TypeError_in key)
  end.

(** [obj[key]], where [obj] may be [undefined]. *)
Definition js_get (obj : option JsObject) (key : string)
  : Completion JsValue :=
  match obj with
  | Some o => Normal (get_property o key)
  | None => Throw (TypeError_reading key)
  end.

(** [a || b] on booleans: [b] is evaluated only when [a] is false. *)
Definition lazy_or (a : bool) (b : Completion bool) : Completion bool :=
  if a then Normal true else b.

(** A synchronous helper of the bundle: it runs against the principal it
    closes over, ends normally or by throwing, and leaves a principal
    behind. *)
Definition Eval (A : Type) : Type := Principal -> Completion A * Principal.

Definition ret {A} (a : A) : Eval A := fun P => (Normal a, P).

Definition throw {A} (e : JsError) : Eval A := fun P => (Throw e, P).

Definition bind {A B} (m : Eval A) (k : A -> Eval B) : Eval B :=
  fun P =>
    match m P with
    | (Normal a, P') => k a P'
    | (Throw e, P') => (Throw e, P')
    end.

(** Reading through the closure. *)
Definition reads {A} (f : Principal -> A) : Eval A := fun P => (Normal (f P), P).

(** Calling, through the closure, a helper that may throw. *)
Definition calls {A} (f : Principal -> Completion A) : Eval A :=
  fun P => (f P, P).

Notation "x <- m ;; k" := (bind m (fun x => k))
  (at level 100, m at next level, right associativity).

(** ** context-helpers.js *)

Module ContextHelpers.

(** [scopes.includes(s)]: a linear search with string equality. *)
Fixpoint includes (scopes : list string) (s : string) : bool :=
  match scopes with
  | [] => false
  | x :: rest => if String.eqb x s then true else includes rest s
  end.

(** [arr.reduce(f, init)] folds from the left. *)
Definition reduce {A B} (f : B -> A -> B) (init : B) (arr : list A) : B :=
  fold_left f arr init.

Section getScopeContextHelpers.
Variable scopes : list string.

Definition hasScope (scope : StringOrArray) : bool :=
  reduce (fun accum s => accum || s) false
         (map (fun s => includes scopes s) (toArray scope)).
End getScopeContextHelpers.

Definition requireScope (scope : StringOrArray) : Eval unit :=
  ok <- reads (fun P => hasScope (scopes P) scope) ;;
  if negb ok then throw (MissingScopeError (requirement_of scope) ReqUndefined)
  else ret tt.

Section getEventContextHelpers.
Variable events : option JsObject.

Definition hasEvent (event : string) : Completion bool := js_in event events.

Definition hasEventScope (event : string) (permission : StringOrArray)
  : Completion bool :=
  ok <~ hasEvent event ;;
  if negb ok then Normal false
  else
    let permissionArray := toArray permission in
    matches <~ map_calls (fun p => stored <~ js_get events event ;;
                                   Normal (strict_equal stored p))
                         permissionArray ;;
    Normal (reduce (fun accum p => p || accum) false matches).
End getEventContextHelpers.

Definition requireEvent (event : string) : Eval unit :=
  ok <- calls (fun P => hasEvent (events P) event) ;;
  if negb ok then throw (MissingScopeError ReqNull (ReqString "any"))
  else ret tt.

Definition requireEventScope (event : string) (permission : StringOrArray)
  : Eval unit :=
  ok <- calls (fun P => hasEventScope (events P) event permission) ;;
  if negb ok then throw (MissingScopeError ReqNull (requirement_of permission))
  else ret tt.

End ContextHelpers.
Export ContextHelpers.

(** ** index.js *)

Module Index.

(** The payload of a verified token, with the claims the builder
    destructures.  Any of them may be missing from a token. *)
Record Claims := {
  claim_sub : option string;
  claim_email : option string;
  claim_scope : option string;
  claim_username : option string;
  claim_corporate_email : option string;
  claim_phone_number : option string;
  claim_pronoun : option string;
  claim_events : option JsObject
}.

Record User := {
  userId : option string;
  username : option string;
  email : option string;
  corporateEmail : option string;
  phoneNumber : option string;
  pronoun : option string
}.

(** What the builder returns: the data of [auth] (its helpers are the
    functions of this file applied to it) and [user]. *)
Record Context := {
  auth : Principal;
  user : User
}.

(** A settled promise. *)
Inductive Settled (A : Type) :=
| Fulfilled (a : A)
| Rejected (e : JsError).
Arguments Fulfilled {A} a.
Arguments Rejected {A} e.

(** An asynchronous function whose only suspension point is
    [await tokenCache.verifyAsync(token)]. *)
Inductive Async (A : Type) :=
| Resolve (a : A)
| Reject (e : JsError)
| AwaitVerify (token : string) (k : Claims -> Async A).
Arguments Resolve {A} a.
Arguments Reject {A} e.
Arguments AwaitVerify {A} token k.

(** Running it against a verification collaborator.  The result is the
    settlement of the returned promise and the tokens the collaborator
    was called with.  No handler surrounds the [await]: a rejection of
    the awaited promise is the rejection of the function. *)
Fixpoint run {A} (verifyAsync : string -> Settled Claims) (m : Async A)
  : Settled A * list string :=
  match m with
  | Resolve a => (Fulfilled a, [])
  | Reject e => (Rejected e, [])
  | AwaitVerify token k =>
      match verifyAsync token with
      | Rejected e => (Rejected e, [token])
      | Fulfilled claims =>
          let (r, calls) := run verifyAsync (k claims) in
          (r, token :: calls)
      end
  end.

Definition set_isLoggedIn (b : bool) (P : Principal) : Principal :=
  {| isLoggedIn := b; scopes := scopes P; events := events P |}.
Definition set_scopes (l : list string) (P : Principal) : Principal :=
  {| isLoggedIn := isLoggedIn P; scopes := l; events := events P |}.
Definition set_events (o : option JsObject) (P : Principal) : Principal :=
  {| isLoggedIn := isLoggedIn P; scopes := scopes P; events := o |}.

(** [let user = {}] *)
Definition empty_user : User :=
  {| userId := None; username := None; email := None;
     corporateEmail := None; phoneNumber := None; pronoun := None |}.

(** [authorization || ''] *)
Definition or_empty (authorization : option string) : string :=
  match authorization with
  | Some s => if truthy s then s else EmptyString
  | None => EmptyString
  end.

(** [const [authType, token] = (authorization || '').split(/\s+/, 2)]:
    a position the array does not have is [undefined]. *)
Definition authType_of (authorization : option string) : option string :=
  split_ws (Some 2%nat) (or_empty authorization) !! 0%nat.
Definition token_of (authorization : option string) : option string :=
  split_ws (Some 2%nat) (or_empty authorization) !! 1%nat.

Section Builder.
(** The names an empty array literal answers to under [in]: [length]
    and the methods of its prototype chain, as the engine has them. *)
Variable array_builtin : list string.

(** [[]] *)
Definition empty_array : JsObject :=
  {| own := ∅; builtin := array_builtin |}.

(** The initial [auth], before a token is looked at. *)
Definition initial_auth : Principal :=
  {| isLoggedIn := false; scopes := []; events := Some empty_array |}.

(** The function returned by the module, applied to
    [req.headers.authorization]. *)
Definition buildContext (authorization : option string) : Async Context :=
  let user := empty_user in
  let auth := initial_auth in
  match authType_of authorization with
  | None => Reject (TypeError_reading "toLowerCase")
  | Some authType =>
      match String.eqb (toLowerCase authType) "bearer",
            token_of authorization with
      | true, Some token =>
          if truthy token then
            AwaitVerify token (fun claims =>
              let auth := set_isLoggedIn true auth in
              match claim_scope claims with
              | None => Reject (TypeError_reading "split")
              | Some scope =>
                  let auth := set_scopes (split_ws None scope) auth in
                  let auth := set_events (claim_events claims) auth in
                  let user :=
                    {| userId := claim_sub claims;
                       username := claim_username claims;
                       email := claim_email claims;
                       corporateEmail := claim_corporate_email claims;
                       phoneNumber := claim_phone_number claims;
                       pronoun := claim_pronoun claims |} in
                  Resolve {| auth := auth; user := user |}
              end)
          else Resolve {| auth := auth; user := user |}
      | _, _ => Resolve {| auth := auth; user := user |}
      end
  end.
End Builder.

(** The two values the builder can resolve with: the context whose
    [auth] and [user] are as initialised, and the context after all
    the assignments of the bearer branch. *)
Definition anonymous_context (array_builtin : list string) : Context :=
  {| auth := initial_auth array_builtin; user := empty_user |}.

Definition populated_context (claims : Claims) (scope : string) : Context :=
  {| auth := {| isLoggedIn := true;
                scopes := split_ws None scope;
                events := claim_events claims |};
     user := {| userId := claim_sub claims;
                username := claim_username claims;
                email := claim_email claims;
                corporateEmail := claim_corporate_email claims;
                phoneNumber := claim_phone_number claims;
                pronoun := claim_pronoun claims |} |}.

(** The helpers the builder adds to the bundle, over the principal
    they close over. *)
Definition hasScopeOrEvent (P : Principal) (scope : StringOrArray)
           (event : string) : Completion bool :=
  lazy_or (hasScope (scopes P) scope) (hasEvent (events P) event).

Definition requireScopeOrEvent (scope : StringOrArray) (event : string)
  : Eval unit :=
  ok <- calls (fun P => hasScopeOrEvent P scope event) ;;
  if negb ok
  then throw (MissingScopeError (requirement_of scope) (ReqString "any"))
  else ret tt.

Definition hasScopeOrEventScope (P : Principal) (scope : StringOrArray)
           (event : string) (eventScope : StringOrArray) : Completion bool :=
  lazy_or (hasScope (scopes P) scope)
          (hasEventScope (events P) event eventScope).

Definition requireScopeOrEventScope (scope : StringOrArray) (event : string)
           (eventScope : StringOrArray) : Eval unit :=
  ok <- calls (fun P => hasScopeOrEventScope P scope event eventScope) ;;
  if negb ok
  then throw (MissingScopeError (requirement_of scope)
                                (requirement_of eventScope))
  else ret tt.

Definition requireLoggedIn : Eval unit :=
  loggedIn <- reads isLoggedIn ;;
  if negb loggedIn then throw MustLogInError else ret tt.

End Index.
Export Index.

(** ** The builder with inline helpers

    The package has a second builder, for a request object that carries
    its headers in [header].  It parses the header and populates [auth]
    like the first, but its helpers are arrow functions written inline
    that reach one another through [this], and they throw plain
    [Error]s. *)

Module ThisVariant.

(** An [Error] of the base class. *)
Definition PlainError (msg : string) : JsError :=
  {| error_class := Foreign "Error"; message := msg |}.

(** [this] in an arrow function is the [this] of the enclosing module
    body: the [exports] object the loader created, on which the module
    defines nothing.  A helper looked up on it is [undefined], and the
    call of [undefined] throws. *)
Definition this_method_call {A} (name : string) : Eval A :=
  throw {| error_class := TypeError;
           message := "this." +:+ name +:+ " is not a function" |}.

(** [`${scope}`]: an array is rendered by joining its entries with a
    comma. *)
Definition template_of (x : StringOrArray) : string :=
  match x with
  | One s => s
  | Many l => join "," l
  end.

Definition double_quote : string :=
  String (ascii_of_nat 34) EmptyString.

Definition hasScope (granted : list string) (scope : StringOrArray) : bool :=
  reduce (fun accum s => accum || s) false
         (map (fun s => includes granted s) (toArray scope)).

Definition requireScope (scope : StringOrArray) : Eval unit :=
  ok <- this_method_call (A := bool) "hasScope" ;;
  if negb ok
  then throw (PlainError ("The " +:+ double_quote +:+ template_of scope
                          +:+ double_quote +:+ " scope is required."))
  else ret tt.

Definition hasEvent (evs : option JsObject) (event : string)
  : Completion bool :=
  js_in event evs.

Definition requireEvent (event : string) : Eval unit :=
  ok <- this_method_call (A := bool) "hasEvent" ;;
  if negb ok
  then throw (PlainError "You do not have permissions for that event.")
  else ret tt.

Definition hasEventScope (event : string) (permission : StringOrArray)
  : Eval bool :=
  ok <- this_method_call (A := bool) "hasEvent" ;;
  if negb ok then ret false
  else
    let permissionArray := toArray permission in
    matches <- calls (fun P =>
                 map_calls (fun p => stored <~ js_get (events P) event ;;
                                     Normal (strict_equal stored p))
                           permissionArray) ;;
    ret (reduce (fun accum p => p || accum) false matches).

Definition requireEventScope (event : string) (permission : StringOrArray)
  : Eval unit :=
  ok <- this_method_call (A := bool) "hasEventScope" ;;
  if negb ok
  then throw (PlainError
                "You do not have the necessary permissions for that event.")
  else ret tt.

Definition requireLoggedIn : Eval unit :=
  loggedIn <- reads isLoggedIn ;;
  if negb loggedIn then throw (PlainError "You must be logged in.")
  else ret tt.

Definition hasScopeOrEvent (P : Principal) (scope : StringOrArray)
           (event : string) : Completion bool :=
  lazy_or (hasScope (scopes P) scope) (hasEvent (events P) event).

Definition requireScopeOrEvent (scope : StringOrArray) (event : string)
  : Eval unit :=
  ok <- this_method_call (A := bool) "hasScopeOrEvent" ;;
  if negb ok then throw (PlainError "You don't have permission for that.")
  else ret tt.

(** [a || b] evaluates [b] only when [a] is false. *)
Definition hasScopeOrEventScope (scope : StringOrArray) (event : string)
           (eventScope : StringOrArray) : Eval bool :=
  granted <- reads (fun P => hasScope (scopes P) scope) ;;
  if granted then ret true else hasEventScope event eventScope.

Definition requireScopeOrEventScope (scope : StringOrArray) (event : string)
           (eventScope : StringOrArray) : Eval unit :=
  ok <- this_method_call (A := bool) "hasScopeOrEventScope" ;;
  if negb ok then throw (PlainError "You don't have permission for that.")
  else ret tt.

End ThisVariant.

(** ** Shapes of strings

    The vocabulary in which the headers and the scope claims of the
    statements below are described: a run of white space, a word, and
    what may follow a word. *)

(** A string made of characters that [\s] matches. *)
Fixpoint all_space (s : string) : bool :=
  match s with
  | EmptyString => true
  | String c rest => is_space c && all_space rest
  end.

(** A non-empty string without white space. *)
Definition word (w : string) : bool := truthy w && no_space w.

(** Nothing, or something that begins with white space. *)
Definition ends_word (tail : string) : bool :=
  match tail with
  | EmptyString => true
  | String c _ => is_space c
  end.

(** ** Sample values

    Concrete principals, headers and collaborators on which the
    statements below are exercised. *)

(** The scenario of the documentation: one global scope and one event. *)
Definition object_builtin_sample : list string :=
  ["constructor"; "hasOwnProperty"; "toString"; "valueOf"].

Definition organizer : Principal :=
  {| isLoggedIn := true;
     scopes := ["admin"];
     events := Some {| own := {["evt1" := "organizer"]};
                       builtin := object_builtin_sample |} |}.

(** A request of a logged-out client, of a client with another scheme,
    of a client with an expired token, and of a client whose token
    carries an empty scope claim. *)
Definition array_builtin_sample : list string :=
  ["length"; "constructor"; "toString"; "push"; "includes"].

Definition expired : JsError :=
  {| error_class := Foreign "TokenExpiredError"; message := "jwt expired" |}.

Definition scopeless_claims : Claims :=
  {| claim_sub := Some "auth0|1";
     claim_email := Some "ada@example.org";
     claim_scope := Some EmptyString;
     claim_username := Some "ada";
     claim_corporate_email := None;
     claim_phone_number := None;
     claim_pronoun := Some "she";
     claim_events := Some {| own := {["evt1" := "organizer"]};
                             builtin := object_builtin_sample |} |}.

Definition sample_verifyAsync (token : string) : Settled Claims :=
  if String.eqb token "good" then Fulfilled scopeless_claims
  else Rejected expired.

(** A token with two scopes, a token without scope claim, and a
    collaborator that knows both. *)
Definition scoped_claims : Claims :=
  {| claim_sub := Some "auth0|2";
     claim_email := Some "lin@example.org";
     claim_scope := Some "read:users write:users";
     claim_username := Some "lin";
     claim_corporate_email := Some "lin@codeday.example";
     claim_phone_number := None;
     claim_pronoun := None;
     claim_events := Some {| own := {["evt7" := "volunteer"]};
                             builtin := object_builtin_sample |} |}.

Definition bare_claims : Claims :=
  {| claim_sub := Some "auth0|3";
     claim_email := None;
     claim_scope := None;
     claim_username := None;
     claim_corporate_email := None;
     claim_phone_number := None;
     claim_pronoun := None;
     claim_events := Some {| own := ∅; builtin := object_builtin_sample |} |}.

Definition directory_verifyAsync (token : string) : Settled Claims :=
  if String.eqb token "lin" then Fulfilled scoped_claims
  else if String.eqb token "bare" then Fulfilled bare_claims
  else Rejected expired.

(** A token that carries scopes and no event claim, the collaborator
    that accepts it, and the principal the builder makes of it. *)
Definition eventless_claims : Claims :=
  {| claim_sub := Some "auth0|4";
     claim_email := Some "sam@example.org";
     claim_scope := Some "read:users";
     claim_username := Some "sam";
     claim_corporate_email := None;
     claim_phone_number := None;
     claim_pronoun := None;
     claim_events := None |}.

Definition eventless_verifyAsync (token : string) : Settled Claims :=
  if String.eqb token "sam" then Fulfilled eventless_claims
  else Rejected expired.


(** * Properties *)

(** ** The folds of the boolean checks *)

Section Folds.

Lemma includes_elem_of (l : list string) (s : string) :
  includes l s = true <-> s ∈ l.
Proof.
  induction l as [|x l IH]; simpl.
  - split; [discriminate | intros H; inversion H].
  - destruct (String.eqb x s) eqn:E.
    + apply String.eqb_eq in E. subst x. split; [constructor | trivial].
    + apply String.eqb_neq in E. rewrite IH, elem_of_cons.
      split; [tauto | intros [->|H]; [contradiction | exact H]].
Qed.

(** [reduce((accum, s) => accum || s, init)] *)
Lemma reduce_or_accum (l : list bool) (init : bool) :
  reduce (fun accum s => accum || s) init l = true
  <-> init = true \/ true ∈ l.
Proof.
  unfold reduce. revert init.
  induction l as [|b l IH]; intros init; simpl.
  - split; [tauto | intros [H|H]; [exact H | inversion H]].
  - rewrite IH, elem_of_cons, orb_true_iff. intuition congruence.
Qed.

(** [reduce((accum, p) => p || accum, init)] *)
Lemma reduce_or_elem (l : list bool) (init : bool) :
  reduce (fun accum p => p || accum) init l = true
  <-> init = true \/ true ∈ l.
Proof.
  unfold reduce. revert init.
  induction l as [|b l IH]; intros init; simpl.
  - split; [tauto | intros [H|H]; [exact H | inversion H]].
  - rewrite IH, elem_of_cons, orb_true_iff. intuition congruence.
Qed.

Lemma true_elem_of_map {A} (f : A -> bool) (l : list A) :
  true ∈ map f l <-> exists x, x ∈ l /\ f x = true.
Proof.
  rewrite list_elem_of_In, in_map_iff.
  split; intros (x & H1 & H2); exists x.
  - rewrite list_elem_of_In. tauto.
  - rewrite <- list_elem_of_In. tauto.
Qed.

End Folds.

(** ** The asserting helpers

    Every [require...] helper has one shape: read a boolean check
    through the closure, throw when it is false.  Such a helper never
    writes to the principal. *)

Lemma require_run (check : Principal -> bool) (e : JsError) (P : Principal) :
  (ok <- reads check ;; if negb ok then throw e else ret tt) P
  = (if check P then Normal tt else Throw e, P).
Proof.
  unfold bind, reads, throw, ret. destruct (check P); reflexivity.
Qed.

Ltac require_cases check :=
  rewrite require_run; destruct check; simpl.

Lemma require_calls_run (check : Principal -> Completion bool) (e : JsError)
      (P : Principal) :
  (ok <- calls check ;; if negb ok then throw e else ret tt) P
  = (match check P with
     | Normal true => Normal tt
     | Normal false => Throw e
     | Throw err => Throw err
     end, P).
Proof.
  unfold bind, calls, throw, ret. destruct (check P) as [[|] | err]; reflexivity.
Qed.

(** ** The event helpers on a mapping that is there, and on none *)

Lemma map_calls_normal {A B} (f : A -> Completion B) (g : A -> B)
      (l : list A) :
  (forall x, f x = Normal (g x)) -> map_calls f l = Normal (map g l).
Proof.
  intros H. induction l as [| x l IH]; [reflexivity |].
  simpl. rewrite H, IH. reflexivity.
Qed.

Lemma hasEventScope_defined (evs : JsObject) (e : string)
      (ps : StringOrArray) :
  hasEventScope (Some evs) e ps
  = Normal (if has_property evs e
            then reduce (fun accum p => p || accum) false
                        (map (fun p => strict_equal (get_property evs e) p)
                             (toArray ps))
            else false).
Proof.
  unfold hasEventScope, hasEvent. simpl.
  destruct (has_property evs e); [| reflexivity]. simpl.
  rewrite (map_calls_normal _ (fun p => strict_equal (get_property evs e) p))
    by reflexivity.
  reflexivity.
Qed.

Lemma hasEventScope_undefined (e : string) (ps : StringOrArray) :
  hasEventScope None e ps = Throw (TypeError_in e).
Proof. reflexivity. Qed.

Lemma hasEventScope_not_own (evs : JsObject) (e : string)
      (ps : StringOrArray) :
  own evs !! e = None -> hasEventScope (Some evs) e ps = Normal false.
Proof.
  intros Hown. rewrite hasEventScope_defined. f_equal.
  unfold has_property, get_property. rewrite Hown.
  destruct (bool_decide _); [| reflexivity].
  apply not_true_is_false. rewrite reduce_or_elem, true_elem_of_map.
  intros [H | (x & _ & H)]; discriminate.
Qed.

Lemma hasEventScope_own (evs : JsObject) (e : string) (ps : StringOrArray)
      (v : string) :
  own evs !! e = Some v ->
  hasEventScope (Some evs) e ps = Normal (bool_decide (v ∈ toArray ps)).
Proof.
  intros Hown. rewrite hasEventScope_defined. f_equal.
  unfold has_property, get_property. rewrite Hown.
  apply eq_true_iff_eq.
  rewrite reduce_or_elem, true_elem_of_map, bool_decide_eq_true. split.
  - intros [H | (x & Hx & H)]; [discriminate |].
    simpl in H. apply String.eqb_eq in H. now subst x.
  - intros H. right. exists v. split; [exact H | apply String.eqb_refl].
Qed.

(** ** Global scopes *)

Example organizer_hasScope_admin :
  hasScope (scopes organizer) (One "admin") = true.
Proof. reflexivity. Qed.

Example organizer_hasScope_viewer_admin :
  hasScope (scopes organizer) (Many ["viewer"; "admin"]) = true.
Proof. reflexivity. Qed.

Example organizer_hasEventScope_organizer :
  hasEventScope (events organizer) "evt1" (One "organizer") = Normal true.
Proof. vm_compute. reflexivity. Qed.

Example organizer_hasEventScope_volunteer :
  hasEventScope (events organizer) "evt1" (One "volunteer") = Normal false.
Proof. vm_compute. reflexivity. Qed.

Example organizer_requireEventScope_volunteer :
  requireEventScope "evt1" (One "volunteer") organizer
  = (Throw (MissingScopeError ReqNull (ReqString "volunteer")), organizer).
Proof. vm_compute. reflexivity. Qed.

Example organizer_hasScopeOrEventScope :
  hasScopeOrEventScope organizer (One "nope") "evt1" (One "organizer")
  = Normal true.
Proof. vm_compute. reflexivity. Qed.

(** An inherited name passes the membership test although no permission
    is stored for it; no permission string equals what is read there. *)
Example organizer_hasEvent_toString :
  hasEvent (events organizer) "toString" = Normal true
  /\ hasEventScope (events organizer) "toString" (One "organizer")
     = Normal false.
Proof. vm_compute. split; reflexivity. Qed.

(** C1: for every principal and every scope argument, a string or an
    array of strings, [hasScope] answers true exactly when at least one
    of the given scopes is among the scopes of the principal. *)
Theorem hasScope_iff_some_member (P : Principal) (s : StringOrArray) :
  hasScope (scopes P) s = true
  <-> exists x, x ∈ toArray s /\ x ∈ scopes P.
Proof.
  unfold hasScope. rewrite reduce_or_accum, true_elem_of_map.
  split.
  - intros [H | (x & Hx & Hin)]; [discriminate |].
    exists x. split; [exact Hx | now apply includes_elem_of].
  - intros (x & Hx & Hin). right. exists x.
    split; [exact Hx | now apply includes_elem_of].
Qed.

(** C2: [requireScope] throws exactly when [hasScope] is false, and what
    it throws is the [MissingScopeError] built with the given scope or
    scopes as its global requirement and no event requirement; when
    [hasScope] is true it returns normally.  In both cases the principal
    is left as it was. *)
Theorem requireScope_throws_iff_not_hasScope
        (P : Principal) (s : StringOrArray) :
  requireScope s P
  = (if hasScope (scopes P) s then Normal tt
     else Throw (MissingScopeError (requirement_of s) ReqUndefined), P)
  /\ ((exists e, fst (requireScope s P) = Throw e
                 /\ error_class e = MissingScope)
      <-> hasScope (scopes P) s = false)
  /\ (fst (requireScope s P) = Normal tt <-> hasScope (scopes P) s = true)
  /\ snd (requireScope s P) = P.
Proof.
  unfold requireScope.
  require_cases (hasScope (scopes P) s); repeat split;
    try reflexivity; try discriminate.
  - intros (e & H & _). discriminate.
  - intros _. eexists. split; reflexivity.
Qed.

(** ** Events *)




(** C6: [hasScopeOrEvent] is the disjunction [hasScope || hasEvent], in
    which [hasEvent] is evaluated only when [hasScope] is false: it is
    the boolean disjunction of the two answers whenever [hasEvent]
    answers; each of the four combinations of the two operands occurs,
    and the equation holds there. *)
Theorem hasScopeOrEvent_is_or :
  (forall (P : Principal) (s : StringOrArray) (e : string),
      hasScopeOrEvent P s e
      = lazy_or (hasScope (scopes P) s) (hasEvent (events P) e))
  /\ (forall a b : bool, lazy_or a (Normal b) = Normal (a || b))
  /\ (forall b1 b2 : bool, exists P s e,
        hasScope (scopes P) s = b1 /\ hasEvent (events P) e = Normal b2
        /\ hasScopeOrEvent P s e = Normal (b1 || b2)).
Proof.
  split; [reflexivity |].
  split; [intros [|] b; reflexivity |].
  intros b1 b2.
  exists organizer, (One (if b1 then "admin" else "nope")),
         (if b2 then "evt1" else "evt2").
  destruct b1, b2; vm_compute; repeat split.
Qed.

(** C8: [requireLoggedIn] throws exactly when the principal is not
    logged in; the error it throws is the [MustLogInError], whose only
    content is the fixed message. *)
Theorem requireLoggedIn_throws_iff_anonymous (P : Principal) :
  requireLoggedIn P
  = (if isLoggedIn P then Normal tt else Throw MustLogInError, P)
  /\ ((exists e, fst (requireLoggedIn P) = Throw e) <-> isLoggedIn P = false)
  /\ MustLogInError
     = {| error_class := MustLogIn; message := "You must be logged in." |}.
Proof.
  unfold requireLoggedIn.
  require_cases (isLoggedIn P); repeat split; try discriminate.
  - intros (e & H). discriminate.
  - intros _. eexists. reflexivity.
Qed.




(** ** The message of [MissingScopeError] *)

Lemma append_assoc (a b c : string) : (a +:+ b) +:+ c = a +:+ (b +:+ c).
Proof.
  induction a as [|x a IH]; [reflexivity |].
  change (String x ((a +:+ b) +:+ c) = String x (a +:+ (b +:+ c))).
  f_equal. exact IH.
Qed.

Lemma makeRequirementMessage_several (xs : list string) (y : string) :
  xs <> [] ->
  makeRequirementMessage (ReqArray (xs ++ [y]))
  = Some (join ", " xs +:+ ", or " +:+ y).
Proof.
  intros Hne. unfold makeRequirementMessage.
  assert (Hlen : length (xs ++ [y]) = S (length xs))
    by (rewrite length_app; simpl; lia).
  rewrite Hlen.
  destruct xs as [|x xs]; [contradiction |].
  replace (S (length (x :: xs)) - 1) with (length (x :: xs)) by (simpl; lia).
  replace (Nat.ltb 1 (S (length (x :: xs)))) with true
    by (symmetry; apply Nat.ltb_lt; simpl; lia).
  rewrite take_app_length.
  rewrite lookup_app_r by lia.
  rewrite Nat.sub_diag. reflexivity.
Qed.

Lemma MissingScopeError_without_global (g ev : Requirement) :
  g ∈ [ReqUndefined; ReqNull; ReqArray []] ->
  message (MissingScopeError g ev)
  = match makeRequirementMessage ev with
    | Some m =>
        if truthy m
        then "You don't have permission for that.(Requires "
             +:+ m +:+ " event scope)"
        else "You don't have permission for that."
    | None => "You don't have permission for that."
    end.
Proof.
  intros Hg.
  assert (Hnone : makeRequirementMessage g = None).
  { repeat (apply elem_of_cons in Hg; destruct Hg as [-> | Hg];
            [reflexivity |]).
    inversion Hg. }
  unfold MissingScopeError. rewrite Hnone.
  destruct (makeRequirementMessage ev) as [[|c m] |]; try reflexivity.
  simpl. now rewrite append_assoc.
Qed.

Lemma MissingScopeError_without_event (g ev : Requirement) :
  ev ∈ [ReqUndefined; ReqNull; ReqArray []] ->
  message (MissingScopeError g ev)
  = match makeRequirementMessage g with
    | Some m =>
        if truthy m
        then "You don't have permission for that.(Requires "
             +:+ m +:+ " global scope)"
        else "You don't have permission for that."
    | None => "You don't have permission for that."
    end.
Proof.
  intros Hev.
  assert (Hnone : makeRequirementMessage ev = None).
  { repeat (apply elem_of_cons in Hev; destruct Hev as [-> | Hev];
            [reflexivity |]).
    inversion Hev. }
  unfold MissingScopeError. rewrite Hnone.
  destruct (makeRequirementMessage g) as [[|c m] |]; try reflexivity.
  simpl. now rewrite append_assoc.
Qed.

(** C7: a requirement list of several entries is rendered as its
    entries joined by commas with [", or "] before the last one; a
    requirement that is absent ([undefined], [null]) or an empty list
    contributes no clause to the message; and the global requirement
    [a, b, c] without an event requirement gives the message that names
    ["a, b, or c global scope"] and nothing about events. *)
Theorem MissingScopeError_message_rendering :
  (forall (xs : list string) (y : string), xs <> [] ->
      makeRequirementMessage (ReqArray (xs ++ [y]))
      = Some (join ", " xs +:+ ", or " +:+ y))
  /\ (forall g ev : Requirement,
        g ∈ [ReqUndefined; ReqNull; ReqArray []] ->
        message (MissingScopeError g ev)
        = match makeRequirementMessage ev with
          | Some m =>
              if truthy m
              then "You don't have permission for that.(Requires "
                   +:+ m +:+ " event scope)"
              else "You don't have permission for that."
          | None => "You don't have permission for that."
          end)
  /\ (forall g ev : Requirement,
        ev ∈ [ReqUndefined; ReqNull; ReqArray []] ->
        message (MissingScopeError g ev)
        = match makeRequirementMessage g with
          | Some m =>
              if truthy m
              then "You don't have permission for that.(Requires "
                   +:+ m +:+ " global scope)"
              else "You don't have permission for that."
          | None => "You don't have permission for that."
          end)
  /\ message (MissingScopeError (ReqArray ["a"; "b"; "c"]) ReqNull)
     = "You don't have permission for that.(Requires a, b, or c global scope)".
Proof.
  split; [exact makeRequirementMessage_several |].
  split; [exact MissingScopeError_without_global |].
  split; [exact MissingScopeError_without_event |].
  reflexivity.
Qed.

Lemma MissingScopeError_message_rendering_witness :
  makeRequirementMessage (ReqArray (["a"; "b"] ++ ["c"])) = Some "a, b, or c"
  /\ message (MissingScopeError (ReqArray []) (ReqArray ["x"; "y"]))
     = "You don't have permission for that.(Requires x, or y event scope)"
  /\ message (MissingScopeError (ReqString "admin") ReqUndefined)
     = "You don't have permission for that.(Requires admin global scope)".
Proof.
  destruct MissingScopeError_message_rendering as (H1 & H2 & H3 & _).
  split; [| split].
  - apply (H1 ["a"; "b"] "c"). discriminate.
  - apply (H2 (ReqArray []) (ReqArray ["x"; "y"])).
    repeat constructor.
  - apply (H3 (ReqString "admin") ReqUndefined). repeat constructor.
Defined.

(** ** The context builder *)

Section BuilderProperties.

Variable array_builtin : list string.

Lemma split_scan_nonempty (s : string) :
  forall lim A cur in_sep, split_scan lim A cur in_sep s <> [].
Proof.
  induction s as [|c s IH]; intros lim A cur in_sep; simpl.
  - destruct A; discriminate.
  - destruct (is_space c); [| apply IH].
    destruct in_sep; [apply IH |].
    destruct (reached lim (A ++ [cur])); [destruct A; discriminate | apply IH].
Qed.

(** The split always has a first piece: [authType] is a string, and
    its method call does not throw. *)
Lemma authType_of_defined (authorization : option string) :
  exists authType, authType_of authorization = Some authType.
Proof.
  unfold authType_of, split_ws.
  pose proof (split_scan_nonempty (or_empty authorization) (Some 2%nat) []
                EmptyString false) as H.
  destruct (split_scan _ _ _ _ _) as [|x l]; [contradiction |].
  exists x. reflexivity.
Qed.

Lemma truthy_false (s : string) : truthy s = false <-> s = EmptyString.
Proof. destruct s; simpl; split; congruence. Qed.

(** Without a bearer scheme or without a credential the builder
    returns at once. *)
Lemma buildContext_no_bearer (authorization : option string) :
  (toLowerCase <$> authType_of authorization) <> Some "bearer"
  \/ token_of authorization = None
  \/ token_of authorization = Some EmptyString ->
  buildContext array_builtin authorization = Resolve (anonymous_context array_builtin).
Proof.
  intros H. unfold buildContext.
  destruct (authType_of_defined authorization) as [authType Ha].
  rewrite Ha in *. simpl in H.
  destruct (String.eqb (toLowerCase authType) "bearer") eqn:E.
  - apply String.eqb_eq in E.
    destruct H as [H | [-> | ->]]; [congruence | reflexivity | reflexivity].
  - destruct (token_of authorization); reflexivity.
Qed.

(** With a bearer scheme and a credential the builder awaits the
    verification of that credential and settles by its result. *)
Lemma buildContext_bearer (authorization : option string) (token : string)
      (verifyAsync : string -> Settled Claims) :
  (toLowerCase <$> authType_of authorization) = Some "bearer" ->
  token_of authorization = Some token ->
  token <> EmptyString ->
  run verifyAsync (buildContext array_builtin authorization)
  = (match verifyAsync token with
     | Rejected e => Rejected e
     | Fulfilled claims =>
         match claim_scope claims with
         | None => Rejected (TypeError_reading "split")
         | Some scope => Fulfilled (populated_context claims scope)
         end
     end, [token]).
Proof.
  intros Hs Ht Hne. unfold buildContext.
  destruct (authType_of authorization) as [authType|]; [| discriminate].
  simpl in Hs. injection Hs as Hs.
  rewrite (proj2 (String.eqb_eq _ _) Hs), Ht.
  destruct (truthy token) eqn:Et;
    [| apply truthy_false in Et; contradiction].
  simpl. destruct (verifyAsync token) as [claims | e]; [| reflexivity].
  destruct (claim_scope claims); reflexivity.
Qed.

(** Every header falls under one of the two lemmas above. *)
Lemma header_cases (authorization : option string) :
  ((toLowerCase <$> authType_of authorization) <> Some "bearer"
   \/ token_of authorization = None
   \/ token_of authorization = Some EmptyString)
  \/ (exists token,
        (toLowerCase <$> authType_of authorization) = Some "bearer"
        /\ token_of authorization = Some token
        /\ token <> EmptyString).
Proof.
  destruct (decide ((toLowerCase <$> authType_of authorization)
                    = Some "bearer")) as [Hs | Hs]; [| tauto].
  destruct (token_of authorization) as [[|c t] |]; [tauto | | tauto].
  right. exists (String c t). repeat split; [exact Hs | discriminate].
Qed.

(** C4: for an [Authorization] header that is absent, or whose scheme is
    not [bearer] up to case, or whose credential is absent or empty, the
    builder resolves, without awaiting the verification and whatever the
    collaborator would answer, with the anonymous context: not logged
    in, no scope, no event, no identity. *)
Theorem buildContext_anonymous_without_bearer (authorization : option string) :
  authorization = None
  \/ (toLowerCase <$> authType_of authorization) <> Some "bearer"
  \/ token_of authorization = None
  \/ token_of authorization = Some EmptyString ->
  buildContext array_builtin authorization
  = Resolve (anonymous_context array_builtin)
  /\ (forall verifyAsync : string -> Settled Claims,
        run verifyAsync (buildContext array_builtin authorization)
        = (Fulfilled (anonymous_context array_builtin), []))
  /\ isLoggedIn (auth (anonymous_context array_builtin)) = false
  /\ scopes (auth (anonymous_context array_builtin)) = []
  /\ events (auth (anonymous_context array_builtin))
     = Some (empty_array array_builtin)
  /\ own (empty_array array_builtin) = ∅
  /\ user (anonymous_context array_builtin) = empty_user.
Proof.
  intros H.
  assert (Hb : buildContext array_builtin authorization
               = Resolve (anonymous_context array_builtin)).
  { destruct H as [-> | H]; [reflexivity |].
    now apply buildContext_no_bearer. }
  rewrite Hb. repeat split; reflexivity.
Qed.

(** C5: when the header carries a bearer credential and the collaborator
    rejects it, the builder rejects with that very error, after the one
    call of the collaborator; and whenever the builder resolves, its
    context is either the anonymous one or the one whose every field
    comes from the claims the collaborator returned for the credential:
    no context in between is ever returned. *)
Theorem buildContext_verification_all_or_nothing
        (authorization : option string)
        (verifyAsync : string -> Settled Claims) :
  (forall (token : string) (e : JsError),
      (toLowerCase <$> authType_of authorization) = Some "bearer" ->
      token_of authorization = Some token ->
      token <> EmptyString ->
      verifyAsync token = Rejected e ->
      run verifyAsync (buildContext array_builtin authorization)
      = (Rejected e, [token]))
  /\ (forall ctx : Context,
        fst (run verifyAsync (buildContext array_builtin authorization))
        = Fulfilled ctx ->
        (isLoggedIn (auth ctx) = false
         /\ scopes (auth ctx) = []
         /\ events (auth ctx) = Some (empty_array array_builtin)
         /\ user ctx = empty_user)
        \/ (exists token claims scope,
              token_of authorization = Some token
              /\ verifyAsync token = Fulfilled claims
              /\ claim_scope claims = Some scope
              /\ isLoggedIn (auth ctx) = true
              /\ scopes (auth ctx) = split_ws None scope
              /\ events (auth ctx) = claim_events claims
              /\ user ctx
                 = {| userId := claim_sub claims;
                      username := claim_username claims;
                      email := claim_email claims;
                      corporateEmail := claim_corporate_email claims;
                      phoneNumber := claim_phone_number claims;
                      pronoun := claim_pronoun claims |})).
Proof.
  split.
  - intros token e Hs Ht Hne Hv.
    rewrite (buildContext_bearer authorization token verifyAsync Hs Ht Hne).
    now rewrite Hv.
  - intros ctx Hrun.
    destruct (header_cases authorization) as [Hanon | (token & Hs & Ht & Hne)].
    + rewrite (buildContext_no_bearer authorization Hanon) in Hrun.
      simpl in Hrun. injection Hrun as <-. left. repeat split.
    + rewrite (buildContext_bearer authorization token verifyAsync Hs Ht Hne)
        in Hrun.
      simpl in Hrun.
      destruct (verifyAsync token) as [claims | e] eqn:Hv; [| discriminate].
      destruct (claim_scope claims) as [scope |] eqn:Hc; [| discriminate].
      injection Hrun as <-. right. exists token, claims, scope.
      repeat split; assumption.
Qed.

(** C9: when the header carries a bearer credential, the verification
    succeeds and the scope claim of the token is the empty string, the
    builder resolves with a logged-in principal whose list of scopes has
    the empty string as its one element, so that [hasScope] of the empty
    string is true for it. *)
Theorem buildContext_empty_scope_claim
        (authorization : option string) (token : string)
        (verifyAsync : string -> Settled Claims) (claims : Claims) :
  (toLowerCase <$> authType_of authorization) = Some "bearer" ->
  token_of authorization = Some token ->
  token <> EmptyString ->
  verifyAsync token = Fulfilled claims ->
  claim_scope claims = Some EmptyString ->
  exists ctx : Context,
    fst (run verifyAsync (buildContext array_builtin authorization))
    = Fulfilled ctx
    /\ isLoggedIn (auth ctx) = true
    /\ scopes (auth ctx) = [EmptyString]
    /\ hasScope (scopes (auth ctx)) (One EmptyString) = true.
Proof.
  intros Hs Ht Hne Hv Hc.
  rewrite (buildContext_bearer authorization token verifyAsync Hs Ht Hne).
  rewrite Hv, Hc. eexists. split; [reflexivity |]. repeat split.
Qed.

End BuilderProperties.

Lemma buildContext_anonymous_without_bearer_witness :
  buildContext array_builtin_sample None
  = Resolve (anonymous_context array_builtin_sample)
  /\ buildContext array_builtin_sample (Some "Basic dXNlcjpwdw==")
     = Resolve (anonymous_context array_builtin_sample)
  /\ buildContext array_builtin_sample (Some "Bearer")
     = Resolve (anonymous_context array_builtin_sample)
  /\ run sample_verifyAsync (buildContext array_builtin_sample (Some "bearer   "))
     = (Fulfilled (anonymous_context array_builtin_sample), []).
Proof.
  split; [| split; [| split]].
  - apply (buildContext_anonymous_without_bearer array_builtin_sample None).
    left. reflexivity.
  - apply (buildContext_anonymous_without_bearer array_builtin_sample
             (Some "Basic dXNlcjpwdw==")).
    right. left. vm_compute. discriminate.
  - apply (buildContext_anonymous_without_bearer array_builtin_sample
             (Some "Bearer")).
    right. right. left. vm_compute. reflexivity.
  - apply (buildContext_anonymous_without_bearer array_builtin_sample
             (Some "bearer   ")).
    right. right. right. vm_compute. reflexivity.
Defined.

Lemma buildContext_verification_all_or_nothing_witness :
  run sample_verifyAsync (buildContext array_builtin_sample (Some "Bearer stale"))
  = (Rejected expired, ["stale"])
  /\ (isLoggedIn (auth (populated_context scopeless_claims EmptyString)) = false
      /\ scopes (auth (populated_context scopeless_claims EmptyString)) = []
      /\ events (auth (populated_context scopeless_claims EmptyString))
         = Some (empty_array array_builtin_sample)
      /\ user (populated_context scopeless_claims EmptyString) = empty_user
      \/ exists token claims scope,
          token_of (Some "Bearer good") = Some token
          /\ sample_verifyAsync token = Fulfilled claims
          /\ claim_scope claims = Some scope
          /\ isLoggedIn (auth (populated_context scopeless_claims EmptyString))
             = true
          /\ scopes (auth (populated_context scopeless_claims EmptyString))
             = split_ws None scope
          /\ events (auth (populated_context scopeless_claims EmptyString))
             = claim_events claims
          /\ user (populated_context scopeless_claims EmptyString)
             = {| userId := claim_sub claims;
                  username := claim_username claims;
                  email := claim_email claims;
                  corporateEmail := claim_corporate_email claims;
                  phoneNumber := claim_phone_number claims;
                  pronoun := claim_pronoun claims |}).
Proof.
  split.
  - apply (proj1 (buildContext_verification_all_or_nothing
                    array_builtin_sample (Some "Bearer stale")
                    sample_verifyAsync) "stale" expired).
    + vm_compute. reflexivity.
    + vm_compute. reflexivity.
    + discriminate.
    + vm_compute. reflexivity.
  - apply (proj2 (buildContext_verification_all_or_nothing
                    array_builtin_sample (Some "Bearer good")
                    sample_verifyAsync)
                 (populated_context scopeless_claims EmptyString)).
    vm_compute. reflexivity.
Defined.

Lemma buildContext_empty_scope_claim_witness :
  exists ctx : Context,
    fst (run sample_verifyAsync
             (buildContext array_builtin_sample (Some "Bearer good")))
    = Fulfilled ctx
    /\ isLoggedIn (auth ctx) = true
    /\ scopes (auth ctx) = [EmptyString]
    /\ hasScope (scopes (auth ctx)) (One EmptyString) = true.
Proof.
  apply (buildContext_empty_scope_claim array_builtin_sample
           (Some "Bearer good") "good" sample_verifyAsync scopeless_claims).
  - vm_compute. reflexivity.
  - vm_compute. reflexivity.
  - discriminate.
  - vm_compute. reflexivity.
  - reflexivity.
Defined.

(** ** The shape of a bearer header

    The splitting loop on the usual header, a scheme and a credential
    separated by one space: the two pieces are the scheme and the
    credential. *)

Example split_three_words :
  split_ws (Some 2%nat) "Bearer abc def" = ["Bearer"; "abc"].
Proof. reflexivity. Qed.

Example split_leading_space :
  split_ws (Some 2%nat) " Bearer abc" = [EmptyString; "Bearer"].
Proof. reflexivity. Qed.

Example split_scope_claim :
  split_ws None "read:users  write:users" = ["read:users"; "write:users"].
Proof. reflexivity. Qed.

Example toLowerCase_mixed : toLowerCase "BeArEr" = "bearer".
Proof. reflexivity. Qed.

Lemma append_empty_r (a : string) : a +:+ EmptyString = a.
Proof.
  induction a as [|x a IH]; [reflexivity |].
  change (String x (a +:+ EmptyString) = String x a). f_equal. exact IH.
Qed.

Lemma split_scan_word (w : string) :
  no_space w = true -> w <> EmptyString ->
  forall lim A cur in_sep s,
    split_scan lim A cur in_sep (w +:+ s)
    = split_scan lim A (cur +:+ w) false s.
Proof.
  induction w as [|c w IH]; intros Hw Hne lim A cur in_sep s;
    [contradiction |].
  simpl in Hw. apply andb_true_iff in Hw as [Hc Hw].
  apply negb_true_iff in Hc.
  change (String c w +:+ s) with (String c (w +:+ s)).
  simpl. rewrite Hc.
  destruct w as [|c' w'].
  - reflexivity.
  - rewrite IH by (assumption || discriminate).
    now rewrite append_assoc.
Qed.

Lemma split_ws_scheme_credential (scheme credential : string) :
  no_space scheme = true -> scheme <> EmptyString ->
  no_space credential = true ->
  split_ws (Some 2%nat) (scheme +:+ " " +:+ credential)
  = [scheme; credential].
Proof.
  intros Hs Hne Hc. unfold split_ws.
  rewrite (split_scan_word scheme Hs Hne).
  change (" " +:+ credential) with (String " " credential).
  simpl.
  destruct credential as [|c t]; [reflexivity |].
  pose proof (split_scan_word (String c t) Hc) as Hw.
  specialize (Hw ltac:(discriminate) (Some 2%nat) [scheme] EmptyString true
                 EmptyString).
  rewrite append_empty_r in Hw. exact Hw.
Qed.

(** * Further properties of the helpers *)

(** ** How the boolean checks compose *)

Lemma hasScope_true_iff (granted : list string) (s : StringOrArray) :
  hasScope granted s = true <-> exists x, x ∈ toArray s /\ x ∈ granted.
Proof.
  unfold hasScope. rewrite reduce_or_accum, true_elem_of_map. split.
  - intros [H | (x & Hx & Hin)]; [discriminate |].
    exists x. split; [exact Hx | now apply includes_elem_of].
  - intros (x & Hx & Hin). right. exists x.
    split; [exact Hx | now apply includes_elem_of].
Qed.

Lemma hasEvent_true_iff (evs : option JsObject) (e : string) :
  hasEvent evs e = Normal true
  <-> exists o, evs = Some o /\ (is_Some (own o !! e) \/ e ∈ builtin o).
Proof.
  unfold hasEvent, js_in. destruct evs as [o |].
  - unfold has_property. destruct (own o !! e) as [v |] eqn:Hown.
    + split; [| reflexivity]. intros _. exists o. split; [reflexivity |].
      left. eauto.
    + split.
      * intros H. injection H as H. apply bool_decide_eq_true in H.
        exists o. tauto.
      * intros (o' & Ho & H). injection Ho as <-. f_equal.
        apply bool_decide_eq_true. rewrite Hown in H.
        destruct H as [[v Hv] | H]; [discriminate | exact H].
  - split; [discriminate | intros (o & H & _); discriminate].
Qed.

Lemma hasEventScope_true_iff (evs : option JsObject) (e : string)
      (ps : StringOrArray) :
  hasEventScope evs e ps = Normal true
  <-> exists o v, evs = Some o /\ own o !! e = Some v /\ v ∈ toArray ps.
Proof.
  destruct evs as [o |].
  - destruct (own o !! e) as [v |] eqn:Hown.
    + rewrite (hasEventScope_own o e ps v Hown). split.
      * intros H. injection H as H. apply bool_decide_eq_true in H. eauto.
      * intros (o' & w & Ho & Hw & Hin). injection Ho as <-.
        rewrite Hown in Hw. injection Hw as <-.
        f_equal. now apply bool_decide_eq_true.
    + rewrite (hasEventScope_not_own o e ps Hown). split; [discriminate |].
      intros (o' & w & Ho & Hw & _). injection Ho as <-. congruence.
  - rewrite hasEventScope_undefined. split; [discriminate |].
    intros (o & v & H & _). discriminate.
Qed.

Lemma lazy_or_true_iff (a : bool) (c : Completion bool) :
  lazy_or a c = Normal true <-> a = true \/ c = Normal true.
Proof.
  destruct a; simpl; split; try tauto.
  intros [H | H]; [discriminate | exact H].
Qed.

(** X1: asking for a list of scopes is asking for each of them and
    taking the disjunction: over a concatenation [hasScope] is the
    disjunction of the two parts, and a single string counts as the
    list holding it. *)
Theorem hasScope_concatenation (granted : list string) :
  (forall l1 l2 : list string,
      hasScope granted (Many (l1 ++ l2))
      = hasScope granted (Many l1) || hasScope granted (Many l2))
  /\ (forall s : string,
        hasScope granted (One s) = hasScope granted (Many [s])
        /\ hasScope granted (One s) = includes granted s).
Proof.
  split.
  - intros l1 l2. apply eq_true_iff_eq.
    rewrite orb_true_iff, !hasScope_true_iff. simpl. split.
    + intros (x & Hx & Hg). apply elem_of_app in Hx as [Hx | Hx];
        [left | right]; eauto.
    + intros [(x & Hx & Hg) | (x & Hx & Hg)]; exists x;
        (split; [apply elem_of_app; tauto | exact Hg]).
  - intros s. split; reflexivity.
Qed.

(** X2: [hasScope] is monotone: a principal that is granted more scopes,
    or a check that accepts more scopes, never turns a true answer into
    a false one; in particular neither the order nor the repetition of
    scopes matters. *)
Theorem hasScope_monotone (granted granted' : list string)
        (s s' : StringOrArray) :
  (forall x, x ∈ granted -> x ∈ granted') ->
  (forall x, x ∈ toArray s -> x ∈ toArray s') ->
  hasScope granted s = true ->
  hasScope granted' s' = true.
Proof.
  intros Hg Hs. rewrite !hasScope_true_iff.
  intros (x & Hx & Hin). exists x. split; [apply Hs | apply Hg]; assumption.
Qed.

Lemma hasScope_monotone_witness :
  hasScope ["read"; "admin"; "admin"] (Many ["write"; "admin"]) = true.
Proof.
  apply (hasScope_monotone ["admin"] ["read"; "admin"; "admin"]
           (One "admin") (Many ["write"; "admin"])).
  - intros x Hx. apply list_elem_of_singleton in Hx. subst x.
    repeat constructor.
  - intros x Hx. apply list_elem_of_singleton in Hx. subst x.
    repeat constructor.
  - reflexivity.
Defined.

(** X3: a permission on an event implies membership in the event, and
    the disjunctive checks are ordered in the same way: whenever
    [hasEventScope] holds so does [hasEvent], and whenever
    [hasScopeOrEventScope] holds so does [hasScopeOrEvent]. *)
Theorem event_scope_implies_event (P : Principal) (s : StringOrArray)
        (e : string) (ps : StringOrArray) :
  (hasEventScope (events P) e ps = Normal true ->
   hasEvent (events P) e = Normal true)
  /\ (hasScopeOrEventScope P s e ps = Normal true ->
      hasScopeOrEvent P s e = Normal true).
Proof.
  assert (H : hasEventScope (events P) e ps = Normal true ->
              hasEvent (events P) e = Normal true).
  { rewrite hasEventScope_true_iff, hasEvent_true_iff.
    intros (o & v & Ho & Hv & _). exists o. split; [exact Ho |]. left. eauto. }
  split; [exact H |].
  unfold hasScopeOrEventScope, hasScopeOrEvent.
  rewrite !lazy_or_true_iff. tauto.
Qed.

Lemma event_scope_implies_event_witness :
  hasEvent (events organizer) "evt1" = Normal true
  /\ hasScopeOrEvent organizer (One "nope") "evt1" = Normal true.
Proof.
  split.
  - apply (proj1 (event_scope_implies_event organizer (One "nope") "evt1"
                    (One "organizer"))).
    vm_compute. reflexivity.
  - apply (proj2 (event_scope_implies_event organizer (One "nope") "evt1"
                    (One "organizer"))).
    vm_compute. reflexivity.
Defined.

(** X4: [hasScopeOrEventScope] answers true exactly when one of the
    given scopes is granted globally or the event has, in an event
    mapping that is there, a stored permission level that is one of the
    given ones. *)
Theorem hasScopeOrEventScope_iff (P : Principal) (s : StringOrArray)
        (e : string) (ps : StringOrArray) :
  hasScopeOrEventScope P s e ps = Normal true
  <-> (exists x, x ∈ toArray s /\ x ∈ scopes P)
      \/ (exists evs v, events P = Some evs /\ own evs !! e = Some v
                        /\ v ∈ toArray ps).
Proof.
  unfold hasScopeOrEventScope.
  now rewrite lazy_or_true_iff, hasScope_true_iff, hasEventScope_true_iff.
Qed.

(** ** More on the message of [MissingScopeError] *)

Lemma clause_Some (m : option string) (suffix r : string) :
  clause m suffix = Some r ->
  exists c t, m = Some (String c t) /\ r = String c (t +:+ suffix).
Proof.
  destruct m as [[| c t] |]; simpl; intros H; try discriminate.
  injection H as <-. eauto.
Qed.

Lemma clause_None (m : option string) (suffix : string) :
  clause m suffix = None <-> m = None \/ m = Some EmptyString.
Proof.
  destruct m as [[| c t] |]; simpl; split; intros H;
    try tauto; try discriminate.
  destruct H as [H | H]; discriminate.
Qed.

(** X5: when both requirements render to a non-empty text, the message
    names both, the global one first, joined by [", or "]. *)
Theorem MissingScopeError_both_clauses (g ev : Requirement)
        (mg me : string) :
  makeRequirementMessage g = Some mg -> mg <> EmptyString ->
  makeRequirementMessage ev = Some me -> me <> EmptyString ->
  message (MissingScopeError g ev)
  = "You don't have permission for that.(Requires "
    +:+ mg +:+ " global scope, or " +:+ me +:+ " event scope)".
Proof.
  intros Hg Hmg He Hme. unfold MissingScopeError. rewrite Hg, He.
  destruct mg as [| c1 t1]; [contradiction |].
  destruct me as [| c2 t2]; [contradiction |].
  simpl. rewrite !append_assoc. reflexivity.
Qed.

Lemma MissingScopeError_both_clauses_witness :
  message (MissingScopeError (ReqArray ["admin"; "staff"]) (ReqString "any"))
  = "You don't have permission for that.(Requires "
    +:+ "admin, or staff" +:+ " global scope, or " +:+ "any"
    +:+ " event scope)".
Proof.
  apply (MissingScopeError_both_clauses (ReqArray ["admin"; "staff"])
           (ReqString "any") "admin, or staff" "any").
  - reflexivity.
  - discriminate.
  - reflexivity.
  - discriminate.
Defined.

(** X6: a requirement renders to nothing exactly when it is
    [undefined], [null] or the empty array; an array of one entry
    renders as that entry, so that the error built from it is the error
    built from the bare string. *)
Theorem makeRequirementMessage_absent_and_single :
  (forall r : Requirement,
      makeRequirementMessage r = None
      <-> r = ReqUndefined \/ r = ReqNull \/ r = ReqArray [])
  /\ (forall (x : string) (other : Requirement),
        makeRequirementMessage (ReqArray [x]) = Some x
        /\ MissingScopeError (ReqArray [x]) other
           = MissingScopeError (ReqString x) other
        /\ MissingScopeError other (ReqArray [x])
           = MissingScopeError other (ReqString x)).
Proof.
  split.
  - intros r. split.
    + destruct r as [| | s | l]; simpl; try tauto; try discriminate.
      destruct l as [| x [| y l]]; simpl; try tauto; discriminate.
    + intros [-> | [-> | ->]]; reflexivity.
  - intros x other. repeat split.
Qed.

(** X7: an empty string is a requirement that renders to nothing: given
    as a string or as the one entry of an array it leaves no clause, and
    the error is the one built without that requirement. *)
Theorem MissingScopeError_empty_string_requirement (other : Requirement) :
  MissingScopeError (ReqString EmptyString) other
  = MissingScopeError ReqNull other
  /\ MissingScopeError (ReqArray [EmptyString]) other
     = MissingScopeError ReqNull other
  /\ MissingScopeError other (ReqString EmptyString)
     = MissingScopeError other ReqNull
  /\ MissingScopeError other (ReqArray [EmptyString])
     = MissingScopeError other ReqNull
  /\ message (MissingScopeError (ReqString EmptyString) ReqUndefined)
     = "You don't have permission for that.".
Proof. repeat split. Qed.

(** X8: every [MissingScopeError] has the class of its own and a
    message that begins with the fixed sentence; the sentence is all of
    the message exactly when neither requirement renders to a non-empty
    text. *)
Theorem MissingScopeError_message_shape (g ev : Requirement) :
  error_class (MissingScopeError g ev) = MissingScope
  /\ exists rest : string,
      message (MissingScopeError g ev)
      = "You don't have permission for that." +:+ rest
      /\ (rest = EmptyString
          <-> (makeRequirementMessage g = None
               \/ makeRequirementMessage g = Some EmptyString)
              /\ (makeRequirementMessage ev = None
                  \/ makeRequirementMessage ev = Some EmptyString)).
Proof.
  split; [reflexivity |].
  pose proof (clause_None (makeRequirementMessage g) " global scope") as Cg.
  pose proof (clause_None (makeRequirementMessage ev) " event scope") as Ce.
  unfold MissingScopeError.
  destruct (clause (makeRequirementMessage g) " global scope") as [a |] eqn:Eg;
    destruct (clause (makeRequirementMessage ev) " event scope") as [b |] eqn:Ee.
  - apply clause_Some in Eg as (c1 & t1 & _ & ->).
    apply clause_Some in Ee as (c2 & t2 & _ & ->).
    eexists. split; [reflexivity |].
    split; [discriminate | intros [H _]; apply Cg in H; discriminate].
  - apply clause_Some in Eg as (c1 & t1 & _ & ->).
    eexists. split; [reflexivity |].
    split; [discriminate | intros [H _]; apply Cg in H; discriminate].
  - apply clause_Some in Ee as (c2 & t2 & _ & ->).
    eexists. split; [reflexivity |].
    split; [discriminate | intros [_ H]; apply Ce in H; discriminate].
  - exists EmptyString. split; [reflexivity |].
    split; [intros _ | reflexivity].
    split; [now apply Cg | now apply Ce].
Qed.

(** ** The other asserting helpers *)

Lemma require_passes (check : Principal -> bool) (e : JsError) (P : Principal) :
  fst ((ok <- reads check ;; if negb ok then throw e else ret tt) P)
  = Normal tt <-> check P = true.
Proof.
  rewrite require_run. destruct (check P); simpl; split;
    congruence || discriminate.
Qed.

Lemma require_calls_passes (check : Principal -> Completion bool)
      (e : JsError) (P : Principal) :
  fst ((ok <- calls check ;; if negb ok then throw e else ret tt) P)
  = Normal tt <-> check P = Normal true.
Proof.
  rewrite require_calls_run. destruct (check P) as [[|] | err]; simpl; split;
    congruence || discriminate.
Qed.

(** X9: [requireEvent] returns normally exactly when the event mapping
    is there and the event id is a key of it or a name it inherits.
    Otherwise it throws: a [TypeError] exactly when the principal has
    no event mapping, and else the [MissingScopeError] whose message
    asks for any event scope.  The principal is left as it was. *)
Theorem requireEvent_behaviour (P : Principal) (e : string) :
  snd (requireEvent e P) = P
  /\ (fst (requireEvent e P) = Normal tt
      <-> exists evs, events P = Some evs
                      /\ (is_Some (own evs !! e) \/ e ∈ builtin evs))
  /\ (fst (requireEvent e P) = Normal tt
      \/ fst (requireEvent e P)
         = Throw {| error_class := MissingScope;
                    message := "You don't have permission for that."
                               +:+ "(Requires any event scope)" |}
      \/ exists err, fst (requireEvent e P) = Throw err
                     /\ error_class err = TypeError)
  /\ (events P = None
      <-> exists err, fst (requireEvent e P) = Throw err
                      /\ error_class err = TypeError).
Proof.
  unfold requireEvent.
  split; [now rewrite require_calls_run |].
  split; [rewrite require_calls_passes; apply hasEvent_true_iff |].
  rewrite require_calls_run. unfold hasEvent, js_in.
  destruct (events P) as [evs |]; simpl.
  - destruct (has_property evs e); simpl.
    + split; [left; reflexivity |].
      split; [discriminate | intros (err & H & _); discriminate].
    + split; [right; left; reflexivity |].
      split; [discriminate |].
      intros (err & H & Hc). injection H as <-. discriminate Hc.
  - split; [right; right; eexists; split; reflexivity |].
    split; [intros _; eexists; split; reflexivity | reflexivity].
Qed.

(** X10: [requireEventScope] returns normally exactly when the event
    mapping is there and holds for the event a permission level that is
    one of the given ones.  Otherwise it throws: a [TypeError] exactly
    when the principal has no event mapping, and else the
    [MissingScopeError] with the given permissions as its event
    requirement and no global one, whose message for a single non-empty
    permission names that permission.  The principal is left as it
    was. *)
Theorem requireEventScope_behaviour (P : Principal) (e : string)
        (ps : StringOrArray) :
  snd (requireEventScope e ps P) = P
  /\ (fst (requireEventScope e ps P) = Normal tt
      <-> exists evs v, events P = Some evs /\ own evs !! e = Some v
                        /\ v ∈ toArray ps)
  /\ (fst (requireEventScope e ps P) = Normal tt
      \/ fst (requireEventScope e ps P)
         = Throw (MissingScopeError ReqNull (requirement_of ps))
      \/ exists err, fst (requireEventScope e ps P) = Throw err
                     /\ error_class err = TypeError)
  /\ (events P = None
      <-> exists err, fst (requireEventScope e ps P) = Throw err
                      /\ error_class err = TypeError)
  /\ (forall (c : ascii) (p : string),
        message (MissingScopeError ReqNull (requirement_of (One (String c p))))
        = "You don't have permission for that.(Requires "
          +:+ String c p +:+ " event scope)").
Proof.
  unfold requireEventScope.
  split; [now rewrite require_calls_run |].
  split; [rewrite require_calls_passes; apply hasEventScope_true_iff |].
  rewrite require_calls_run.
  assert (Hmsg : forall (c : ascii) (p : string),
             message (MissingScopeError ReqNull
                        (requirement_of (One (String c p))))
             = "You don't have permission for that.(Requires "
               +:+ String c p +:+ " event scope)").
  { intros c p. apply (MissingScopeError_without_global ReqNull).
    repeat constructor. }
  destruct (events P) as [evs |].
  - rewrite hasEventScope_defined.
    destruct (if has_property evs e then _ else _); simpl.
    + split; [left; reflexivity |].
      split; [| exact Hmsg].
      split; [discriminate | intros (err & H & _); discriminate].
    + split; [right; left; reflexivity |].
      split; [| exact Hmsg].
      split; [discriminate |].
      intros (err & H & Hc). injection H as <-. discriminate Hc.
  - rewrite hasEventScope_undefined. simpl.
    split; [right; right; eexists; split; reflexivity |].
    split; [| exact Hmsg].
    split; [intros _; eexists; split; reflexivity | reflexivity].
Qed.

(** X11: [requireScopeOrEvent] returns normally exactly when one of the
    given scopes is granted, or the event mapping is there and the
    event id passes the membership test.  Otherwise it throws: a
    [TypeError] exactly when no given scope is granted and the
    principal has no event mapping, and else the [MissingScopeError]
    with the given scopes as global requirement and [any] as event
    requirement.  The principal is left as it was. *)
Theorem requireScopeOrEvent_behaviour (P : Principal) (s : StringOrArray)
        (e : string) :
  snd (requireScopeOrEvent s e P) = P
  /\ (fst (requireScopeOrEvent s e P) = Normal tt
      <-> (exists x, x ∈ toArray s /\ x ∈ scopes P)
          \/ (exists evs, events P = Some evs
                          /\ (is_Some (own evs !! e) \/ e ∈ builtin evs)))
  /\ (fst (requireScopeOrEvent s e P) = Normal tt
      \/ fst (requireScopeOrEvent s e P)
         = Throw (MissingScopeError (requirement_of s) (ReqString "any"))
      \/ exists err, fst (requireScopeOrEvent s e P) = Throw err
                     /\ error_class err = TypeError)
  /\ (hasScope (scopes P) s = false /\ events P = None
      <-> exists err, fst (requireScopeOrEvent s e P) = Throw err
                      /\ error_class err = TypeError).
Proof.
  unfold requireScopeOrEvent.
  split; [now rewrite require_calls_run |].
  split.
  { rewrite require_calls_passes. unfold hasScopeOrEvent.
    now rewrite lazy_or_true_iff, hasScope_true_iff, hasEvent_true_iff. }
  rewrite require_calls_run. unfold hasScopeOrEvent, lazy_or.
  destruct (hasScope (scopes P) s); simpl.
  { split; [left; reflexivity |].
    split; [intros [H _]; discriminate | intros (err & H & _); discriminate]. }
  unfold hasEvent, js_in.
  destruct (events P) as [evs |]; simpl.
  - destruct (has_property evs e); simpl.
    + split; [left; reflexivity |].
      split; [intros [_ H]; discriminate
             | intros (err & H & _); discriminate].
    + split; [right; left; reflexivity |].
      split; [intros [_ H]; discriminate |].
      intros (err & H & Hc). injection H as <-. discriminate Hc.
  - split; [right; right; eexists; split; reflexivity |].
    split; [intros _; eexists; split; reflexivity | tauto].
Qed.

(** X12: [requireScopeOrEventScope] returns normally exactly when one
    of the given scopes is granted, or the event mapping is there and
    holds for the event a permission level that is one of the given
    ones.  Otherwise it throws: a [TypeError] exactly when no given
    scope is granted and the principal has no event mapping, and else
    the [MissingScopeError] with the given scopes and the given
    permissions as its two requirements.  The principal is left as it
    was. *)
Theorem requireScopeOrEventScope_behaviour (P : Principal)
        (s : StringOrArray) (e : string) (ps : StringOrArray) :
  snd (requireScopeOrEventScope s e ps P) = P
  /\ (fst (requireScopeOrEventScope s e ps P) = Normal tt
      <-> (exists x, x ∈ toArray s /\ x ∈ scopes P)
          \/ (exists evs v, events P = Some evs /\ own evs !! e = Some v
                            /\ v ∈ toArray ps))
  /\ (fst (requireScopeOrEventScope s e ps P) = Normal tt
      \/ fst (requireScopeOrEventScope s e ps P)
         = Throw (MissingScopeError (requirement_of s) (requirement_of ps))
      \/ exists err, fst (requireScopeOrEventScope s e ps P) = Throw err
                     /\ error_class err = TypeError)
  /\ (hasScope (scopes P) s = false /\ events P = None
      <-> exists err, fst (requireScopeOrEventScope s e ps P) = Throw err
                      /\ error_class err = TypeError).
Proof.
  unfold requireScopeOrEventScope.
  split; [now rewrite require_calls_run |].
  split.
  { rewrite require_calls_passes. unfold hasScopeOrEventScope.
    now rewrite lazy_or_true_iff, hasScope_true_iff, hasEventScope_true_iff. }
  rewrite require_calls_run. unfold hasScopeOrEventScope, lazy_or.
  destruct (hasScope (scopes P) s); simpl.
  { split; [left; reflexivity |].
    split; [intros [H _]; discriminate | intros (err & H & _); discriminate]. }
  destruct (events P) as [evs |].
  - rewrite hasEventScope_defined.
    destruct (if has_property evs e then _ else _); simpl.
    + split; [left; reflexivity |].
      split; [intros [_ H]; discriminate
             | intros (err & H & _); discriminate].
    + split; [right; left; reflexivity |].
      split; [intros [_ H]; discriminate |].
      intros (err & H & Hc). injection H as <-. discriminate Hc.
  - rewrite hasEventScope_undefined. simpl.
    split; [right; right; eexists; split; reflexivity |].
    split; [intros _; eexists; split; reflexivity | tauto].
Qed.

(** X13: the assertions are ordered by strength.  A principal that
    passes [requireScope] passes both disjunctive assertions for the
    same scopes; one that passes [requireEventScope] passes
    [requireEvent] and [requireScopeOrEventScope]; and one that passes
    [requireScopeOrEventScope] or [requireEvent] passes
    [requireScopeOrEvent]. *)
Theorem assertions_ordered (P : Principal) (s : StringOrArray) (e : string)
        (ps : StringOrArray) :
  (fst (requireScope s P) = Normal tt ->
   fst (requireScopeOrEvent s e P) = Normal tt
   /\ fst (requireScopeOrEventScope s e ps P) = Normal tt)
  /\ (fst (requireEventScope e ps P) = Normal tt ->
      fst (requireEvent e P) = Normal tt
      /\ fst (requireScopeOrEventScope s e ps P) = Normal tt)
  /\ (fst (requireScopeOrEventScope s e ps P) = Normal tt ->
      fst (requireScopeOrEvent s e P) = Normal tt)
  /\ (fst (requireEvent e P) = Normal tt ->
      fst (requireScopeOrEvent s e P) = Normal tt).
Proof.
  unfold requireScope, requireEvent, requireEventScope, requireScopeOrEvent,
    requireScopeOrEventScope.
  rewrite require_passes, !require_calls_passes.
  unfold hasScopeOrEvent, hasScopeOrEventScope.
  rewrite !lazy_or_true_iff.
  assert (H : hasEventScope (events P) e ps = Normal true ->
              hasEvent (events P) e = Normal true).
  { rewrite hasEventScope_true_iff, hasEvent_true_iff.
    intros (o & v & Ho & Hv & _). exists o. split; [exact Ho |]. left. eauto. }
  tauto.
Qed.

Lemma assertions_ordered_witness :
  (fst (requireScopeOrEvent (One "admin") "evt9" organizer) = Normal tt
   /\ fst (requireScopeOrEventScope (One "admin") "evt9" (One "judge") organizer)
      = Normal tt)
  /\ (fst (requireEvent "evt1" organizer) = Normal tt
      /\ fst (requireScopeOrEventScope (One "nope") "evt1" (One "organizer")
                organizer) = Normal tt)
  /\ fst (requireScopeOrEvent (One "nope") "evt1" organizer) = Normal tt
  /\ fst (requireScopeOrEvent (One "nope") "toString" organizer) = Normal tt.
Proof.
  split; [| split; [| split]].
  - apply (proj1 (assertions_ordered organizer (One "admin") "evt9"
                    (One "judge"))).
    vm_compute. reflexivity.
  - apply (proj1 (proj2 (assertions_ordered organizer (One "nope") "evt1"
                           (One "organizer")))).
    vm_compute. reflexivity.
  - apply (proj1 (proj2 (proj2 (assertions_ordered organizer (One "nope")
                                   "evt1" (One "organizer"))))).
    vm_compute. reflexivity.
  - apply (proj2 (proj2 (proj2 (assertions_ordered organizer (One "nope")
                                   "toString" (One "organizer"))))).
    vm_compute. reflexivity.
Defined.

(** * Further properties of the builder *)

(** ** The pieces of a split *)

Lemma no_space_app (a b : string) :
  no_space (a +:+ b) = no_space a && no_space b.
Proof.
  induction a as [| c a IH]; [reflexivity |].
  change (String c a +:+ b) with (String c (a +:+ b)). simpl.
  now rewrite IH, andb_assoc.
Qed.

Lemma split_scan_pieces (s : string) :
  forall lim A cur in_sep,
    Forall (fun x => no_space x = true) A -> no_space cur = true ->
    Forall (fun x => no_space x = true) (split_scan lim A cur in_sep s).
Proof.
  induction s as [| c s IH]; intros lim A cur in_sep HA Hcur; simpl.
  - apply Forall_app. split; [exact HA | repeat constructor; exact Hcur].
  - assert (HA' : Forall (fun x => no_space x = true) (A ++ [cur])).
    { apply Forall_app. split; [exact HA | repeat constructor; exact Hcur]. }
    destruct (is_space c) eqn:Ec.
    + destruct in_sep; [now apply IH |].
      destruct (reached lim (A ++ [cur])); [exact HA' | now apply IH].
    + apply IH; [exact HA |].
      rewrite no_space_app, Hcur. simpl. now rewrite Ec.
Qed.

Lemma split_scan_first (s : string) :
  forall lim a A cur in_sep,
    exists rest, split_scan lim (a :: A) cur in_sep s = a :: rest.
Proof.
  induction s as [| c s IH]; intros lim a A cur in_sep; simpl.
  - eauto.
  - destruct (is_space c); [| apply IH].
    destruct in_sep; [apply IH |].
    destruct (reached lim (a :: A ++ [cur])); [eauto |].
    apply (IH lim a (A ++ [cur])).
Qed.

Lemma split_scan_skip (sep : string) :
  all_space sep = true ->
  forall lim A cur s,
    split_scan lim A cur true (sep +:+ s) = split_scan lim A cur true s.
Proof.
  induction sep as [| c sep IH]; intros Hsep lim A cur s; [reflexivity |].
  simpl in Hsep. apply andb_true_iff in Hsep as [Hc Hsep].
  change (String c sep +:+ s) with (String c (sep +:+ s)).
  simpl. rewrite Hc. now apply IH.
Qed.

Lemma word_inv (w : string) :
  word w = true -> no_space w = true /\ w <> EmptyString.
Proof.
  unfold word. intros H. apply andb_true_iff in H as [Ht Hn].
  split; [exact Hn | intros ->; discriminate].
Qed.

Lemma split_scan_words (l : list string) :
  Forall (fun w => word w = true) l -> l <> [] ->
  forall A in_sep,
    split_scan None A EmptyString in_sep (join " " l) = A ++ l.
Proof.
  induction l as [| w l IH]; intros Hl Hne A in_sep; [contradiction |].
  apply Forall_cons in Hl as [Hw Hl].
  apply word_inv in Hw as [Hw Hwne].
  destruct l as [| w' l].
  - simpl. rewrite <- (append_empty_r w) at 1.
    now rewrite (split_scan_word w Hw Hwne).
  - change (join " " (w :: w' :: l))
      with (w +:+ String " " (join " " (w' :: l))).
    rewrite (split_scan_word w Hw Hwne). simpl.
    rewrite (IH Hl ltac:(discriminate)).
    now rewrite <- app_assoc.
Qed.

Lemma split_ws_header (scheme sep credential tail : string) :
  word scheme = true ->
  all_space sep = true -> sep <> EmptyString ->
  word credential = true ->
  ends_word tail = true ->
  split_ws (Some 2%nat) (scheme +:+ sep +:+ credential +:+ tail)
  = [scheme; credential].
Proof.
  intros Hs Hsep Hsepne Hc Ht. unfold split_ws.
  apply word_inv in Hs as [Hs Hsne]. apply word_inv in Hc as [Hc Hcne].
  rewrite (split_scan_word scheme Hs Hsne).
  destruct sep as [| c sep]; [contradiction |].
  simpl in Hsep. apply andb_true_iff in Hsep as [Hc1 Hsep].
  change (String c sep +:+ credential +:+ tail)
    with (String c (sep +:+ credential +:+ tail)).
  simpl. rewrite Hc1. simpl.
  rewrite (split_scan_skip sep Hsep).
  rewrite (split_scan_word credential Hc Hcne).
  destruct tail as [| c2 tail]; [reflexivity |].
  simpl in Ht. simpl. rewrite Ht. reflexivity.
Qed.

(** ** Headers, calls and rejections *)

Section BuilderFurther.

Variable array_builtin : list string.

(** X14: for a header made of a scheme that is [bearer] up to case, a
    run of white space, a credential without white space and then
    either nothing or white space followed by anything, the builder
    calls the collaborator once, with exactly the credential, and
    settles by its answer; what follows the credential is ignored. *)
Theorem buildContext_bearer_header
        (scheme sep credential tail : string)
        (verifyAsync : string -> Settled Claims) :
  word scheme = true -> toLowerCase scheme = "bearer" ->
  all_space sep = true -> sep <> EmptyString ->
  word credential = true ->
  ends_word tail = true ->
  run verifyAsync
      (buildContext array_builtin
                    (Some (scheme +:+ sep +:+ credential +:+ tail)))
  = (match verifyAsync credential with
     | Rejected e => Rejected e
     | Fulfilled claims =>
         match claim_scope claims with
         | None => Rejected (TypeError_reading "split")
         | Some scope => Fulfilled (populated_context claims scope)
         end
     end, [credential]).
Proof.
  intros Hs Hlow Hsep Hsepne Hc Ht.
  pose proof (split_ws_header scheme sep credential tail Hs Hsep Hsepne Hc Ht)
    as Hsplit.
  assert (Hor : or_empty (Some (scheme +:+ sep +:+ credential +:+ tail))
                = scheme +:+ sep +:+ credential +:+ tail).
  { apply word_inv in Hs as [_ Hne].
    destruct scheme; [contradiction | reflexivity]. }
  apply buildContext_bearer.
  - unfold authType_of. rewrite Hor, Hsplit. simpl. now rewrite Hlow.
  - unfold token_of. now rewrite Hor, Hsplit.
  - now apply word_inv in Hc.
Qed.

(** X15: a header that begins with white space is anonymous, whatever
    follows: the first piece of the split is empty, so the scheme is
    not [bearer], and the collaborator is not called. *)
Theorem buildContext_leading_space (c : ascii) (rest : string) :
  is_space c = true ->
  buildContext array_builtin (Some (String c rest))
  = Resolve (anonymous_context array_builtin).
Proof.
  intros Hc. apply buildContext_no_bearer. left.
  unfold authType_of, split_ws. simpl. rewrite Hc. simpl.
  destruct (split_scan_first rest (Some 2%nat) EmptyString [] EmptyString true)
    as [pieces ->].
  simpl. discriminate.
Qed.

(** X16: a verified token that has no scope claim makes the builder
    reject with a [TypeError], after the call of the collaborator: the
    request gets no context, not even the anonymous one. *)
Theorem buildContext_missing_scope_claim
        (authorization : option string) (token : string)
        (verifyAsync : string -> Settled Claims) (claims : Claims) :
  (toLowerCase <$> authType_of authorization) = Some "bearer" ->
  token_of authorization = Some token ->
  token <> EmptyString ->
  verifyAsync token = Fulfilled claims ->
  claim_scope claims = None ->
  run verifyAsync (buildContext array_builtin authorization)
  = (Rejected (TypeError_reading "split"), [token])
  /\ error_class (TypeError_reading "split") = TypeError.
Proof.
  intros Hs Ht Hne Hv Hc.
  rewrite (buildContext_bearer array_builtin authorization token verifyAsync
             Hs Ht Hne).
  now rewrite Hv, Hc.
Qed.

(** X17: the builder calls the collaborator at most once, and only with
    the second piece of the header: either there is no call and the
    context is the anonymous one, or there is the one call with the
    non-empty credential. *)
Theorem buildContext_calls (authorization : option string)
        (verifyAsync : string -> Settled Claims) :
  run verifyAsync (buildContext array_builtin authorization)
  = (Fulfilled (anonymous_context array_builtin), [])
  \/ exists token,
      token_of authorization = Some token /\ token <> EmptyString
      /\ snd (run verifyAsync (buildContext array_builtin authorization))
         = [token].
Proof.
  destruct (header_cases authorization) as [Hanon | (token & Hs & Ht & Hne)].
  - left. now rewrite (buildContext_no_bearer array_builtin authorization Hanon).
  - right. exists token. repeat split; try assumption.
    now rewrite (buildContext_bearer array_builtin authorization token
                   verifyAsync Hs Ht Hne).
Qed.

(** X18: the builder rejects only for one of two reasons: the
    collaborator rejected the credential, with that same error, or the
    verified claims lack the scope claim.  It never rejects a request
    whose header carries no bearer credential, and it raises none of the
    two errors of the package by itself. *)
Theorem buildContext_rejection_causes (authorization : option string)
        (verifyAsync : string -> Settled Claims) (e : JsError) :
  fst (run verifyAsync (buildContext array_builtin authorization))
  = Rejected e ->
  exists token,
    (toLowerCase <$> authType_of authorization) = Some "bearer"
    /\ token_of authorization = Some token
    /\ (verifyAsync token = Rejected e
        \/ exists claims,
            verifyAsync token = Fulfilled claims
            /\ claim_scope claims = None
            /\ e = TypeError_reading "split").
Proof.
  intros Hrun.
  destruct (header_cases authorization) as [Hanon | (token & Hs & Ht & Hne)].
  - rewrite (buildContext_no_bearer array_builtin authorization Hanon) in Hrun.
    discriminate.
  - rewrite (buildContext_bearer array_builtin authorization token
               verifyAsync Hs Ht Hne) in Hrun.
    simpl in Hrun. exists token. repeat split; try assumption.
    destruct (verifyAsync token) as [claims | e'] eqn:Hv.
    + right. exists claims.
      destruct (claim_scope claims); [discriminate |].
      injection Hrun as <-. repeat split.
    + left. congruence.
Qed.

(** X19: on the context the builder resolves with, [requireLoggedIn]
    returns normally exactly when the header carried a bearer
    credential that the collaborator verified. *)
Theorem requireLoggedIn_after_buildContext (authorization : option string)
        (verifyAsync : string -> Settled Claims) (ctx : Context) :
  fst (run verifyAsync (buildContext array_builtin authorization))
  = Fulfilled ctx ->
  (fst (requireLoggedIn (auth ctx)) = Normal tt
   <-> exists token claims,
        (toLowerCase <$> authType_of authorization) = Some "bearer"
        /\ token_of authorization = Some token
        /\ token <> EmptyString
        /\ verifyAsync token = Fulfilled claims).
Proof.
  intros Hrun. unfold requireLoggedIn. rewrite require_passes.
  destruct (header_cases authorization) as [Hanon | (token & Hs & Ht & Hne)].
  - rewrite (buildContext_no_bearer array_builtin authorization Hanon) in Hrun.
    injection Hrun as <-. simpl. split; [discriminate |].
    intros (token & claims & Hs & Ht & Hne & _).
    destruct Hanon as [H | [H | H]]; congruence.
  - rewrite (buildContext_bearer array_builtin authorization token
               verifyAsync Hs Ht Hne) in Hrun.
    simpl in Hrun.
    destruct (verifyAsync token) as [claims | e'] eqn:Hv; [| discriminate].
    destruct (claim_scope claims); [| discriminate].
    injection Hrun as <-. simpl. split; [| reflexivity].
    intros _. exists token, claims. repeat split; assumption.
Qed.

End BuilderFurther.

Lemma buildContext_bearer_header_witness :
  run directory_verifyAsync
      (buildContext array_builtin_sample
                    (Some ("BEARER" +:+ "  " +:+ "lin" +:+ " and more")))
  = (match directory_verifyAsync "lin" with
     | Rejected e => Rejected e
     | Fulfilled claims =>
         match claim_scope claims with
         | None => Rejected (TypeError_reading "split")
         | Some scope => Fulfilled (populated_context claims scope)
         end
     end, ["lin"]).
Proof.
  apply (buildContext_bearer_header array_builtin_sample
           "BEARER" "  " "lin" " and more" directory_verifyAsync).
  - reflexivity.
  - reflexivity.
  - reflexivity.
  - discriminate.
  - reflexivity.
  - reflexivity.
Defined.

Lemma buildContext_leading_space_witness :
  buildContext array_builtin_sample (Some (String " " "Bearer lin"))
  = Resolve (anonymous_context array_builtin_sample).
Proof.
  apply (buildContext_leading_space array_builtin_sample " " "Bearer lin").
  reflexivity.
Defined.

Lemma buildContext_missing_scope_claim_witness :
  run directory_verifyAsync
      (buildContext array_builtin_sample (Some "Bearer bare"))
  = (Rejected (TypeError_reading "split"), ["bare"])
  /\ error_class (TypeError_reading "split") = TypeError.
Proof.
  apply (buildContext_missing_scope_claim array_builtin_sample
           (Some "Bearer bare") "bare" directory_verifyAsync bare_claims).
  - vm_compute. reflexivity.
  - vm_compute. reflexivity.
  - discriminate.
  - reflexivity.
  - reflexivity.
Defined.

Lemma buildContext_rejection_causes_witness :
  exists token,
    (toLowerCase <$> authType_of (Some "bearer stale")) = Some "bearer"
    /\ token_of (Some "bearer stale") = Some token
    /\ (directory_verifyAsync token = Rejected expired
        \/ exists claims,
            directory_verifyAsync token = Fulfilled claims
            /\ claim_scope claims = None
            /\ expired = TypeError_reading "split").
Proof.
  apply (buildContext_rejection_causes array_builtin_sample
           (Some "bearer stale") directory_verifyAsync expired).
  vm_compute. reflexivity.
Defined.

Lemma requireLoggedIn_after_buildContext_witness :
  fst (requireLoggedIn
         (auth (populated_context scoped_claims "read:users write:users")))
  = Normal tt
  <-> exists token claims,
      (toLowerCase <$> authType_of (Some "Bearer lin")) = Some "bearer"
      /\ token_of (Some "Bearer lin") = Some token
      /\ token <> EmptyString
      /\ directory_verifyAsync token = Fulfilled claims.
Proof.
  apply (requireLoggedIn_after_buildContext array_builtin_sample
           (Some "Bearer lin") directory_verifyAsync
           (populated_context scoped_claims "read:users write:users")).
  vm_compute. reflexivity.
Defined.

(** ** The scopes of the principals the builder returns *)

Section BuiltScopes.

Variable array_builtin : list string.

(** X20: no scope of a principal the builder returns contains white
    space, so [hasScope] of a string with white space in it is false
    for every such principal; and a logged-in principal always has at
    least one entry in its list of scopes. *)
Theorem built_scopes_without_space (authorization : option string)
        (verifyAsync : string -> Settled Claims) (ctx : Context) :
  fst (run verifyAsync (buildContext array_builtin authorization))
  = Fulfilled ctx ->
  Forall (fun x => no_space x = true) (scopes (auth ctx))
  /\ (forall s, no_space s = false ->
                hasScope (scopes (auth ctx)) (One s) = false)
  /\ (isLoggedIn (auth ctx) = true -> scopes (auth ctx) <> []).
Proof.
  intros Hrun.
  assert (HF : Forall (fun x => no_space x = true) (scopes (auth ctx))
               /\ (isLoggedIn (auth ctx) = true -> scopes (auth ctx) <> [])).
  { destruct (header_cases authorization) as [Hanon | (token & Hs & Ht & Hne)].
    - rewrite (buildContext_no_bearer array_builtin authorization Hanon)
        in Hrun.
      injection Hrun as <-. simpl. split; [constructor | discriminate].
    - rewrite (buildContext_bearer array_builtin authorization token
                 verifyAsync Hs Ht Hne) in Hrun.
      simpl in Hrun.
      destruct (verifyAsync token) as [claims | e']; [| discriminate].
      destruct (claim_scope claims) as [scope |]; [| discriminate].
      injection Hrun as <-. simpl. split.
      + apply split_scan_pieces; [constructor | reflexivity].
      + intros _. apply split_scan_nonempty. }
  destruct HF as [HF Hne]. repeat split; [exact HF | | exact Hne].
  intros s Hs. apply not_true_is_false. rewrite hasScope_true_iff.
  intros (x & Hx & Hin). apply list_elem_of_singleton in Hx. subst x.
  rewrite Forall_forall in HF. apply HF in Hin. congruence.
Qed.

(** X21: a scope claim written as words separated by single spaces is
    read back word for word: the split of the joined list is the list,
    and the principal built from such a token has exactly these
    scopes. *)
Theorem scope_claim_round_trip (l : list string) :
  Forall (fun w => word w = true) l -> l <> [] ->
  split_ws None (join " " l) = l
  /\ forall (authorization : option string) (token : string)
            (verifyAsync : string -> Settled Claims) (claims : Claims),
      (toLowerCase <$> authType_of authorization) = Some "bearer" ->
      token_of authorization = Some token ->
      token <> EmptyString ->
      verifyAsync token = Fulfilled claims ->
      claim_scope claims = Some (join " " l) ->
      exists ctx,
        fst (run verifyAsync (buildContext array_builtin authorization))
        = Fulfilled ctx
        /\ scopes (auth ctx) = l.
Proof.
  intros Hl Hne.
  assert (Hsplit : split_ws None (join " " l) = l).
  { unfold split_ws. now rewrite (split_scan_words l Hl Hne). }
  split; [exact Hsplit |].
  intros authorization token verifyAsync claims Hs Ht Htne Hv Hc.
  rewrite (buildContext_bearer array_builtin authorization token verifyAsync
             Hs Ht Htne).
  rewrite Hv, Hc. eexists. split; [reflexivity | exact Hsplit].
Qed.

(** X22: the anonymous principal holds no permission: every check on
    scopes or on event permissions is false for it and it is not logged
    in.  Only the bare membership test can succeed, and it does so
    exactly for the names an empty array answers to. *)
Theorem anonymous_holds_nothing (s : StringOrArray) (e : string)
        (ps : StringOrArray) :
  hasScope (scopes (initial_auth array_builtin)) s = false
  /\ hasEventScope (events (initial_auth array_builtin)) e ps = Normal false
  /\ hasScopeOrEventScope (initial_auth array_builtin) s e ps = Normal false
  /\ (hasEvent (events (initial_auth array_builtin)) e = Normal true
      <-> e ∈ array_builtin)
  /\ (hasScopeOrEvent (initial_auth array_builtin) s e = Normal true
      <-> e ∈ array_builtin)
  /\ fst (requireLoggedIn (initial_auth array_builtin)) = Throw MustLogInError.
Proof.
  assert (H1 : hasScope (scopes (initial_auth array_builtin)) s = false).
  { apply not_true_is_false. rewrite hasScope_true_iff.
    intros (x & _ & H). inversion H. }
  assert (H2 : hasEventScope (events (initial_auth array_builtin)) e ps
               = Normal false).
  { apply hasEventScope_not_own. apply lookup_empty. }
  assert (H3 : hasEvent (events (initial_auth array_builtin)) e = Normal true
               <-> e ∈ array_builtin).
  { rewrite hasEvent_true_iff. simpl. split.
    - intros (o & Ho & H). injection Ho as <-. simpl in H.
      rewrite lookup_empty in H.
      destruct H as [[v H] | H]; [discriminate | exact H].
    - intros H. eexists. split; [reflexivity |]. right. exact H. }
  repeat split; try assumption; try apply H3.
  - unfold hasScopeOrEventScope. now rewrite H1, H2.
  - unfold hasScopeOrEvent. rewrite H1. simpl. apply H3.
  - unfold hasScopeOrEvent. rewrite H1. simpl. apply H3.
Qed.

End BuiltScopes.

Lemma built_scopes_without_space_witness :
  Forall (fun x => no_space x = true)
         (scopes (auth (populated_context scoped_claims
                                          "read:users write:users")))
  /\ (forall s, no_space s = false ->
        hasScope (scopes (auth (populated_context scoped_claims
                                                  "read:users write:users")))
                 (One s) = false)
  /\ (isLoggedIn (auth (populated_context scoped_claims
                                          "read:users write:users")) = true ->
      scopes (auth (populated_context scoped_claims "read:users write:users"))
      <> []).
Proof.
  apply (built_scopes_without_space array_builtin_sample (Some "Bearer lin")
           directory_verifyAsync
           (populated_context scoped_claims "read:users write:users")).
  vm_compute. reflexivity.
Defined.

Lemma scope_claim_round_trip_witness :
  split_ws None (join " " ["read:users"; "write:users"])
  = ["read:users"; "write:users"]
  /\ exists ctx,
      fst (run directory_verifyAsync
               (buildContext array_builtin_sample (Some "Bearer lin")))
      = Fulfilled ctx
      /\ scopes (auth ctx) = ["read:users"; "write:users"].
Proof.
  assert (Hl : Forall (fun w => word w = true) ["read:users"; "write:users"])
    by (repeat constructor).
  assert (Hne : ["read:users"; "write:users"] <> @nil string)
    by discriminate.
  split.
  - apply (proj1 (scope_claim_round_trip array_builtin_sample
                    ["read:users"; "write:users"] Hl Hne)).
  - apply (proj2 (scope_claim_round_trip array_builtin_sample
                    ["read:users"; "write:users"] Hl Hne)
                 (Some "Bearer lin") "lin" directory_verifyAsync
                 scoped_claims).
    + vm_compute. reflexivity.
    + vm_compute. reflexivity.
    + discriminate.
    + reflexivity.
    + reflexivity.
Defined.

(** * The builder with inline helpers *)

(** X23: in the builder with inline helpers, no asserting helper on
    scopes or events can succeed, and neither can [hasEventScope]: each
    of them throws a [TypeError] for every argument and every principal,
    also one that holds what is asked for, and never one of the errors
    that tell of a missing permission. *)
Theorem this_variant_helpers_always_throw (P : Principal)
        (scope : StringOrArray) (event : string) (permission : StringOrArray) :
  (forall r : Completion unit * Principal,
      r ∈ [ThisVariant.requireScope scope P;
           ThisVariant.requireEvent event P;
           ThisVariant.requireEventScope event permission P;
           ThisVariant.requireScopeOrEvent scope event P;
           ThisVariant.requireScopeOrEventScope scope event permission P] ->
      exists e, r = (Throw e, P) /\ error_class e = TypeError)
  /\ exists e, ThisVariant.hasEventScope event permission P = (Throw e, P)
               /\ error_class e = TypeError.
Proof.
  split.
  - intros r Hr.
    repeat (apply elem_of_cons in Hr; destruct Hr as [-> | Hr];
            [eexists; split; reflexivity |]).
    inversion Hr.
  - eexists. split; reflexivity.
Qed.

Lemma this_variant_helpers_always_throw_witness :
  exists e, ThisVariant.requireScope (One "admin") organizer
            = (Throw e, organizer)
            /\ error_class e = TypeError.
Proof.
  apply (proj1 (this_variant_helpers_always_throw organizer (One "admin")
                  "evt1" (One "organizer"))).
  repeat constructor.
Defined.

(** X24: in the builder with inline helpers, [hasScopeOrEventScope]
    never answers false: it answers true when one of the given scopes is
    granted, and throws a [TypeError] otherwise, whatever permission the
    principal has on the event.  [hasScopeOrEvent] is not affected and
    agrees with the one of the first builder. *)
Theorem this_variant_hasScopeOrEventScope (P : Principal)
        (scope : StringOrArray) (event : string) (eventScope : StringOrArray) :
  snd (ThisVariant.hasScopeOrEventScope scope event eventScope P) = P
  /\ (fst (ThisVariant.hasScopeOrEventScope scope event eventScope P)
      = Normal true
      <-> exists x, x ∈ toArray scope /\ x ∈ scopes P)
  /\ fst (ThisVariant.hasScopeOrEventScope scope event eventScope P)
     <> Normal false
  /\ (fst (ThisVariant.hasScopeOrEventScope scope event eventScope P)
      = Normal true
      \/ exists e,
          fst (ThisVariant.hasScopeOrEventScope scope event eventScope P)
          = Throw e /\ error_class e = TypeError)
  /\ ThisVariant.hasScopeOrEvent P scope event
     = Index.hasScopeOrEvent P scope event.
Proof.
  rewrite <- hasScope_true_iff.
  unfold ThisVariant.hasScopeOrEventScope, bind, reads.
  change (ThisVariant.hasScope (scopes P) scope)
    with (ContextHelpers.hasScope (scopes P) scope).
  destruct (ContextHelpers.hasScope (scopes P) scope); simpl.
  - repeat split; try discriminate. left. reflexivity.
  - repeat split; try discriminate. right. eexists. split; reflexivity.
Qed.

(** * A token without event claim *)

(** X25: a verified token that has a scope claim and no event claim
    gives a logged-in principal without event mapping.  On it every
    membership test on events throws a [TypeError], while a disjunctive
    check still answers true, without looking at the events, when one
    of its scopes is granted. *)
Theorem buildContext_missing_events_claim
        (array_builtin : list string)
        (authorization : option string) (token : string)
        (verifyAsync : string -> Settled Claims) (claims : Claims)
        (scope : string) :
  (toLowerCase <$> authType_of authorization) = Some "bearer" ->
  token_of authorization = Some token ->
  token <> EmptyString ->
  verifyAsync token = Fulfilled claims ->
  claim_scope claims = Some scope ->
  claim_events claims = None ->
  exists ctx : Context,
    fst (run verifyAsync (buildContext array_builtin authorization))
    = Fulfilled ctx
    /\ isLoggedIn (auth ctx) = true
    /\ events (auth ctx) = None
    /\ (forall e, exists err,
           hasEvent (events (auth ctx)) e = Throw err
           /\ error_class err = TypeError)
    /\ (forall s e es,
           hasScope (scopes (auth ctx)) s = true ->
           hasScopeOrEvent (auth ctx) s e = Normal true
           /\ hasScopeOrEventScope (auth ctx) s e es = Normal true).
Proof.
  intros Hs Ht Hne Hv Hc He.
  rewrite (buildContext_bearer array_builtin authorization token verifyAsync
             Hs Ht Hne).
  rewrite Hv, Hc. eexists. split; [reflexivity |]. simpl.
  split; [reflexivity |]. split; [exact He |]. split.
  - intros e. rewrite He. eexists. split; reflexivity.
  - intros s e es Hg. unfold hasScopeOrEvent, hasScopeOrEventScope. simpl.
    rewrite Hg. split; reflexivity.
Qed.

Lemma buildContext_missing_events_claim_witness :
  exists ctx : Context,
    fst (run eventless_verifyAsync
             (buildContext array_builtin_sample (Some "Bearer sam")))
    = Fulfilled ctx
    /\ isLoggedIn (auth ctx) = true
    /\ events (auth ctx) = None
    /\ (forall e, exists err,
           hasEvent (events (auth ctx)) e = Throw err
           /\ error_class err = TypeError)
    /\ (forall s e es,
           hasScope (scopes (auth ctx)) s = true ->
           hasScopeOrEvent (auth ctx) s e = Normal true
           /\ hasScopeOrEventScope (auth ctx) s e es = Normal true).
Proof.
  apply (buildContext_missing_events_claim array_builtin_sample
           (Some "Bearer sam") "sam" eventless_verifyAsync eventless_claims
           "read:users").
  - vm_compute. reflexivity.
  - vm_compute. reflexivity.
  - discriminate.
  - reflexivity.
  - reflexivity.
  - reflexivity.
Defined.
